(** * mx-puppet-bridge: the synchronisation core, embedded in Rocq

    The development follows three source files:
    - [src/puppetbridge.ts]      ([PuppetBridge.uploadContent]),
    - [src/roomsyncroniser.ts]   ([RoomSyncroniser], stored beside the
      schema file [src/db/schema/v10.ts]),
    - [src/usersyncroniser.ts]   ([UserSyncroniser]).

    Asynchronous TypeScript is embedded as a small free monad [Prog]: every
    [await] on a collaborator is an [Await] node, every synchronous call
    on the keyed lock or the logger a [Do] node, a promise that is started
    and not awaited a [Fork] node.  The same program text is then run by
    two interpreters: [exec], which runs one call from start to end on its
    own, and [Sched.run], which interleaves several calls at their
    suspension points the way a cooperative event loop does. *)

From Stdlib Require Import ZArith String Ascii List Bool Lia.
From stdpp Require Import gmap strings list pretty.

Open Scope string_scope.
Open Scope Z_scope.

(** ** Values *)

Definition Buffer := list Byte.byte.

(** A JavaScript error value.  The code only ever inspects
    [err.body.errcode]; an error without a [body] (a network failure, a
    [TypeError]) makes that very inspection throw. *)
Inductive JsError :=
| MatrixError (errcode : string)
| PlainError (msg : string).

Definition TypeError : JsError := PlainError "TypeError".

(** [ITokenResponse] *)
Record ITokenResponse := { hsUrl : string; token : string }.

(** matrix-bot-sdk's [Intent]: the bot's own, or the one of a user id. *)
Inductive Intent :=
| botIntent
| IntentForUserId (userId : string).

(** A [MatrixClient] object is identified by the account it acts for. *)
Inductive MatrixClient :=
| underlyingClient (i : Intent)
| NewMatrixClient (t : ITokenResponse).

(** [IRemoteProfile], [IRemoteRoom], [IRemoteUser] (interfaces.ts): optional
    fields are [option]s. *)
Record IRemoteProfile := {
  p_name : option string;
  p_avatarUrl : option string }.

Record IRemoteRoom := {
  r_puppetId : Z;
  r_roomId : string;
  r_isDirect : bool;
  r_topic : option string;
  r_groupId : option string;
  r_name : option string;
  r_avatarUrl : option string }.

Record IRemoteUser := {
  u_puppetId : Z;
  u_userId : string;
  u_name : option string;
  u_avatarUrl : option string;
  u_roomOverrides : option (list (string * IRemoteProfile)) }.

(** [IProfileDbEntry]: also the shape of what the reconciler returns, where
    a field that is [Some] is an own property of the returned object. *)
Record IProfileDbEntry := {
  d_name : option string;
  d_avatarUrl : option string;
  d_avatarMxc : option string;
  d_avatarHash : option string }.

Record IRoomStoreEntry := {
  e_mxid : string;
  e_roomId : string;
  e_puppetId : Z;
  e_profile : IProfileDbEntry;
  e_topic : option string;
  e_groupId : option string }.

Record IUserStoreEntry := {
  s_puppetId : Z;
  s_userId : string;
  s_profile : IProfileDbEntry }.

Record IUserStoreRoomOverrideEntry := {
  o_puppetId : Z;
  o_userId : string;
  o_roomId : string;
  o_profile : IProfileDbEntry }.

(** What [provisioner.get] returns of a puppet. *)
Record IPuppet := {
  pp_userId : option string;
  pp_puppetMxid : string }.

(** The content of a state event, as far as the code reads or writes it.
    [users] and [aliases] are optional because the code dereferences them
    on whatever the server returned. *)
Inductive Content :=
| c_empty
| c_name (name : option string)
| c_url (url : option string)
| c_topic (topic : string)
| c_power_levels (users : option (gmap string Z)) (rest : string)
| c_aliases (aliases : option (list string))
| c_member (displayname avatar_url : option string).

(** The parameters [getMxid] hands to [client.createRoom]. *)
Record CreateParams := {
  visibility : string;
  preset : string;
  power_level_content_override : list (string * list (string * Z));
  is_direct : bool;
  invite : option (list string);
  initial_state : list (string * Content);
  room_alias_name : option string;
  cp_name : option string }.

Global Instance JsError_eq_dec : EqDecision JsError.
Proof. solve_decision. Defined.
Global Instance Intent_eq_dec : EqDecision Intent.
Proof. solve_decision. Defined.
Global Instance ITokenResponse_eq_dec : EqDecision ITokenResponse.
Proof. solve_decision. Defined.
Global Instance MatrixClient_eq_dec : EqDecision MatrixClient.
Proof. solve_decision. Defined.

(** ** JavaScript truthiness on optional strings *)

Definition truthy (o : option string) : bool :=
  match o with
  | Some s => negb (String.eqb s "")
  | None => false
  end.

(** [a || b] *)
Definition or_else (a b : option string) : option string :=
  if truthy a then a else b.

(** [a !== undefined && a !== null && a !== b] *)
Definition defined_and_differs (a b : option string) : bool :=
  match a with
  | Some x => negb (bool_decide (b = Some x))
  | None => false
  end.

(** [Object.assign(target, update)] on the profile fields: an own property
    of [update] replaces the target's. *)
Definition assign_field (update target : option string) : option string :=
  match update with
  | Some _ => update
  | None => target
  end.

Definition assign_profile (target update : IProfileDbEntry) : IProfileDbEntry :=
  {| d_name := assign_field (d_name update) (d_name target);
     d_avatarUrl := assign_field (d_avatarUrl update) (d_avatarUrl target);
     d_avatarMxc := assign_field (d_avatarMxc update) (d_avatarMxc target);
     d_avatarHash := assign_field (d_avatarHash update) (d_avatarHash target) |}.

Definition no_profile : IProfileDbEntry :=
  {| d_name := None; d_avatarUrl := None; d_avatarMxc := None; d_avatarHash := None |}.

Definition room_profile (data : IRemoteRoom) : IRemoteProfile :=
  {| p_name := r_name data; p_avatarUrl := r_avatarUrl data |}.

Definition user_profile (data : IRemoteUser) : IRemoteProfile :=
  {| p_name := u_name data; p_avatarUrl := u_avatarUrl data |}.

(** ** Collaborator calls

    One constructor per awaited call.  The persistence calls are answered
    from the stores of the [World]; the transport, the hooks, the download
    and the group synchroniser are answered by an oracle. *)

Inductive LockId := mxidLock | clientLock | mxcLookupLock.

Inductive Call : Type :=
(* keyed lock: the two ways an awaited [wait] suspends *)
| next_turn
| holder_released (l : LockId) (key : string)
(* DbRoomStore *)
| roomStore_getByRemote (puppetId : Z) (roomId : string)
| roomStore_getByMxid (mxid : string)
| roomStore_getByPuppetId (puppetId : Z)
| roomStore_set (e : IRoomStoreEntry)
| roomStore_delete (e : IRoomStoreEntry)
| roomStore_getRoomOp (mxid : string)
| roomStore_setRoomOp (mxid userId : string)
(* DbUserStore *)
| userStore_get (puppetId : Z) (userId : string)
| userStore_set (e : IUserStoreEntry)
| userStore_delete (puppetId : Z) (userId : string)
| userStore_getRoomOverride (puppetId : Z) (userId roomId : string)
| userStore_setRoomOverride (e : IUserStoreRoomOverrideEntry)
| userStore_getAllRoomOverrides (puppetId : Z) (userId : string)
(* Store: the file cache *)
| store_getFileMxc (thing : string + Buffer)
| store_setFileMxc (thing : string + Buffer) (mxcUrl filename : string)
(* DbPuppetStore *)
| puppetStore_getGhostsInRoom (room : string)
| puppetStore_leaveGhostFromRoom (userMxid roomMxid : string)
| puppetStore_emptyGhostsInRoom (room : string)
(* Provisioner *)
| provisioner_get (puppetId : Z)
| provisioner_getToken (who : Z + string)
(* MatrixClient and Intent: the transport *)
| client_createRoom (c : MatrixClient) (params : CreateParams)
| client_getUserId (c : MatrixClient)
| client_sendStateEvent (c : MatrixClient) (roomId type stateKey : string) (content : Content)
| client_getRoomStateEvent (c : MatrixClient) (roomId type stateKey : string)
| client_deleteRoomAlias (c : MatrixClient) (alias : string)
| client_uploadContent (c : MatrixClient) (data : Buffer) (mimetype filename : string)
| client_setDisplayName (c : MatrixClient) (name : string)
| client_setAvatarUrl (c : MatrixClient) (url : string)
| intent_ensureRegistered (i : Intent)
| intent_leaveRoom (i : Intent) (roomId : string)
| intent_getJoinedRooms (i : Intent)
(* Util, hooks, group synchroniser *)
| Util_DownloadFile (url : string)
| hooks_createRoom (data : IRemoteRoom)
| hooks_createUser (data : IRemoteUser)
| groupSync_removeRoomFromGroup (groupId : string) (puppetId : Z) (roomId : string)
| groupSync_addRoomToGroup (groupId : string) (puppetId : Z) (roomId : string).

(** The type of what a call resolves to. *)
Definition result (c : Call) : Type :=
  match c with
  | next_turn | holder_released _ _ => unit
  | roomStore_getByRemote _ _ | roomStore_getByMxid _ => option IRoomStoreEntry
  | roomStore_getByPuppetId _ => list IRoomStoreEntry
  | roomStore_set _ | roomStore_delete _ | roomStore_setRoomOp _ _ => unit
  | roomStore_getRoomOp _ => option string
  | userStore_get _ _ => option IUserStoreEntry
  | userStore_set _ | userStore_delete _ _ | userStore_setRoomOverride _ => unit
  | userStore_getRoomOverride _ _ _ => option IUserStoreRoomOverrideEntry
  | userStore_getAllRoomOverrides _ _ => list IUserStoreRoomOverrideEntry
  | store_getFileMxc _ => option string
  | store_setFileMxc _ _ _ => unit
  | puppetStore_getGhostsInRoom _ => list string
  | puppetStore_leaveGhostFromRoom _ _ | puppetStore_emptyGhostsInRoom _ => unit
  | provisioner_get _ => option IPuppet
  | provisioner_getToken _ => option ITokenResponse
  | client_createRoom _ _ | client_getUserId _ => string
  | client_sendStateEvent _ _ _ _ _ => string
  | client_getRoomStateEvent _ _ _ _ => Content
  | client_deleteRoomAlias _ _ => unit
  | client_uploadContent _ _ _ _ => string
  | client_setDisplayName _ _ | client_setAvatarUrl _ _ => unit
  | intent_ensureRegistered _ | intent_leaveRoom _ _ => unit
  | intent_getJoinedRooms _ => list string
  | Util_DownloadFile _ => Buffer
  | hooks_createRoom _ => option IRemoteRoom
  | hooks_createUser _ => option IRemoteUser
  | groupSync_removeRoomFromGroup _ _ _ | groupSync_addRoomToGroup _ _ _ => unit
  end.

(** Synchronous calls: the keyed lock's bookkeeping and the logger. *)
Inductive LogLevel := silly | verbose | info | warn | error.

Inductive Act : Type :=
| lock_has (l : LockId) (key : string)
| lock_set (l : LockId) (key : string)
| lock_release (l : LockId) (key : string)
| log (lvl : LogLevel) (msg : string).

Definition act_result (a : Act) : Type :=
  match a with
  | lock_has _ _ => bool
  | _ => unit
  end.

(** ** Programs *)

Inductive Prog (A : Type) : Type :=
| Ret (a : A)
| Throw (e : JsError)
| Do (a : Act) (k : act_result a -> Prog A)
| Await (c : Call) (k : JsError + result c -> Prog A)
| Fork (bg : Prog unit) (k : Prog A).

Arguments Ret {A} a.
Arguments Throw {A} e.
Arguments Do {A} a k.
Arguments Await {A} c k.
Arguments Fork {A} bg k.

Fixpoint bind {A B : Type} (p : Prog A) (f : A -> Prog B) : Prog B :=
  match p with
  | Ret a => f a
  | Throw e => Throw e
  | Do a k => Do a (fun r => bind (k r) f)
  | Await c k => Await c (fun r => bind (k r) f)
  | Fork bg k => Fork bg (bind k f)
  end.

(** [try { p } catch (err) { h err }] *)
Fixpoint try_catch {A : Type} (p : Prog A) (h : JsError -> Prog A) : Prog A :=
  match p with
  | Ret a => Ret a
  | Throw e => h e
  | Do a k => Do a (fun r => try_catch (k r) h)
  | Await c k => Await c (fun r => try_catch (k r) h)
  | Fork bg k => Fork bg (try_catch k h)
  end.

(** [await c]: a rejected promise throws at the [await]. *)
Definition call (c : Call) : Prog (result c) :=
  Await c (fun r => match r with inl e => Throw e | inr v => Ret v end).

Definition perform (a : Act) : Prog (act_result a) := Do a Ret.

(** A promise that is created and not awaited. *)
Definition floating (bg : Prog unit) : Prog unit := Fork bg (Ret tt).

Declare Scope prog_scope.
Delimit Scope prog_scope with prog.
Notation "x <- p ;; q" := (bind p (fun x => q))
  (at level 100, p at next level, right associativity) : prog_scope.
Notation "p ;; q" := (bind p (fun _ => q))
  (at level 100, right associativity) : prog_scope.
Open Scope prog_scope.

(** [for (const x of l) { body x }] *)
Fixpoint for_of {X : Type} (l : list X) (body : X -> Prog unit) : Prog unit :=
  match l with
  | [] => Ret tt
  | x :: l' => body x ;; for_of l' body
  end.

(** ** The bridge instance

    What the three classes reach through [this.bridge]: configuration,
    which hooks are set, and the helpers whose code is in other files
    ([Util], [StringFormatter]) or in matrix-bot-sdk ([Appservice]).  They
    are parameters of the development. *)
Record PuppetBridge := {
  Util_str2mxid : string -> string;
  Util_mxid2str : string -> string;
  Util_HashBuffer : Buffer -> string;
  Util_GetMimeType : Buffer -> string;
  Util_ProcessProfileUpdate :
    option IProfileDbEntry -> IRemoteProfile -> string ->
    (Buffer -> option string -> option string -> Prog string) ->
    Prog IProfileDbEntry;
  AS_isNamespacedUser : string -> bool;
  AS_getUserIdForSuffix : string -> string;
  AS_getAliasLocalpartForSuffix : string -> string;
  AS_getSuffixForAlias : string -> option string;
  AS_getSuffixForUserId : string -> option string;
  namePatterns_room : string;
  namePatterns_user : string;
  namePatterns_userOverride : string;
  config_bridge_domain : string;
  hooks_createRoom_set : bool;
  hooks_createUser_set : bool;
  groupSyncEnabled : bool }.

(** ** The world a call runs in *)

Record World := {
  (* Lock.locks of the three lock objects: the keys with a holder *)
  held_mxid : gset string;
  held_client : gset string;
  held_mxc : gset string;
  (* persistence *)
  roomStore : gmap string IRoomStoreEntry;
  roomOps : gmap string string;
  userStore : gmap (Z * string) IUserStoreEntry;
  roomOverrides : gmap (Z * string * string) IUserStoreRoomOverrideEntry;
  fileStore : gmap string (string * string);
  ghostsInRoom : gmap string (list string);
  (* provisioner: read only here *)
  puppets : gmap Z IPuppet;
  puppetTokens : gmap Z ITokenResponse;
  mxidTokens : gmap string ITokenResponse;
  (* observation *)
  tick : nat;
  trace : list Call;
  logs : list (LogLevel * string);
  unhandled : list JsError }.

Definition holders (l : LockId) (w : World) : gset string :=
  match l with
  | mxidLock => held_mxid w
  | clientLock => held_client w
  | mxcLookupLock => held_mxc w
  end.

Definition set_holders (l : LockId) (s : gset string) (w : World) : World :=
  {| held_mxid := match l with mxidLock => s | _ => held_mxid w end;
     held_client := match l with clientLock => s | _ => held_client w end;
     held_mxc := match l with mxcLookupLock => s | _ => held_mxc w end;
     roomStore := roomStore w; roomOps := roomOps w; userStore := userStore w;
     roomOverrides := roomOverrides w; fileStore := fileStore w;
     ghostsInRoom := ghostsInRoom w; puppets := puppets w;
     puppetTokens := puppetTokens w; mxidTokens := mxidTokens w;
     tick := tick w; trace := trace w; logs := logs w; unhandled := unhandled w |}.

Definition set_rooms (m : gmap string IRoomStoreEntry) (o : gmap string string)
    (w : World) : World :=
  {| held_mxid := held_mxid w; held_client := held_client w; held_mxc := held_mxc w;
     roomStore := m; roomOps := o; userStore := userStore w;
     roomOverrides := roomOverrides w; fileStore := fileStore w;
     ghostsInRoom := ghostsInRoom w; puppets := puppets w;
     puppetTokens := puppetTokens w; mxidTokens := mxidTokens w;
     tick := tick w; trace := trace w; logs := logs w; unhandled := unhandled w |}.

Definition set_users (m : gmap (Z * string) IUserStoreEntry)
    (o : gmap (Z * string * string) IUserStoreRoomOverrideEntry) (w : World) : World :=
  {| held_mxid := held_mxid w; held_client := held_client w; held_mxc := held_mxc w;
     roomStore := roomStore w; roomOps := roomOps w; userStore := m;
     roomOverrides := o; fileStore := fileStore w;
     ghostsInRoom := ghostsInRoom w; puppets := puppets w;
     puppetTokens := puppetTokens w; mxidTokens := mxidTokens w;
     tick := tick w; trace := trace w; logs := logs w; unhandled := unhandled w |}.

Definition set_files (m : gmap string (string * string)) (w : World) : World :=
  {| held_mxid := held_mxid w; held_client := held_client w; held_mxc := held_mxc w;
     roomStore := roomStore w; roomOps := roomOps w; userStore := userStore w;
     roomOverrides := roomOverrides w; fileStore := m;
     ghostsInRoom := ghostsInRoom w; puppets := puppets w;
     puppetTokens := puppetTokens w; mxidTokens := mxidTokens w;
     tick := tick w; trace := trace w; logs := logs w; unhandled := unhandled w |}.

Definition set_ghosts (m : gmap string (list string)) (w : World) : World :=
  {| held_mxid := held_mxid w; held_client := held_client w; held_mxc := held_mxc w;
     roomStore := roomStore w; roomOps := roomOps w; userStore := userStore w;
     roomOverrides := roomOverrides w; fileStore := fileStore w;
     ghostsInRoom := m; puppets := puppets w;
     puppetTokens := puppetTokens w; mxidTokens := mxidTokens w;
     tick := tick w; trace := trace w; logs := logs w; unhandled := unhandled w |}.

(** An awaited call is appended to the trace. *)
Definition traced (c : Call) (w : World) : World :=
  {| held_mxid := held_mxid w; held_client := held_client w; held_mxc := held_mxc w;
     roomStore := roomStore w; roomOps := roomOps w; userStore := userStore w;
     roomOverrides := roomOverrides w; fileStore := fileStore w;
     ghostsInRoom := ghostsInRoom w; puppets := puppets w;
     puppetTokens := puppetTokens w; mxidTokens := mxidTokens w;
     tick := tick w; trace := trace w ++ [c]; logs := logs w; unhandled := unhandled w |}.

Definition ticked (w : World) : World :=
  {| held_mxid := held_mxid w; held_client := held_client w; held_mxc := held_mxc w;
     roomStore := roomStore w; roomOps := roomOps w; userStore := userStore w;
     roomOverrides := roomOverrides w; fileStore := fileStore w;
     ghostsInRoom := ghostsInRoom w; puppets := puppets w;
     puppetTokens := puppetTokens w; mxidTokens := mxidTokens w;
     tick := S (tick w); trace := trace w; logs := logs w; unhandled := unhandled w |}.

Definition logged (lvl : LogLevel) (msg : string) (w : World) : World :=
  {| held_mxid := held_mxid w; held_client := held_client w; held_mxc := held_mxc w;
     roomStore := roomStore w; roomOps := roomOps w; userStore := userStore w;
     roomOverrides := roomOverrides w; fileStore := fileStore w;
     ghostsInRoom := ghostsInRoom w; puppets := puppets w;
     puppetTokens := puppetTokens w; mxidTokens := mxidTokens w;
     tick := tick w; trace := trace w; logs := logs w ++ [(lvl, msg)];
     unhandled := unhandled w |}.

Definition rejected (e : JsError) (w : World) : World :=
  {| held_mxid := held_mxid w; held_client := held_client w; held_mxc := held_mxc w;
     roomStore := roomStore w; roomOps := roomOps w; userStore := userStore w;
     roomOverrides := roomOverrides w; fileStore := fileStore w;
     ghostsInRoom := ghostsInRoom w; puppets := puppets w;
     puppetTokens := puppetTokens w; mxidTokens := mxidTokens w;
     tick := tick w; trace := trace w; logs := logs w;
     unhandled := unhandled w ++ [e] |}.

(** The transport, the hooks, the download and the group synchroniser:
    what the [n]-th such call answers. *)
Definition Oracle := nat -> forall c : Call, JsError + result c.

(** ** Running a program *)

(** The result of running one call: the world when the call's promise
    settles, what it settles to, and what the promises it left floating
    still do afterwards. *)
Record Run (A : Type) := ran {
  at_return : World;
  outcome : JsError + A;
  detached : World -> World }.

Arguments ran {A} at_return outcome detached.
Arguments at_return {A} r.
Arguments outcome {A} r.
Arguments detached {A} r w.

(** The world once the floating promises have settled too. *)
Definition finish {A : Type} (r : Run A) : World := detached r (at_return r).

(** A floating promise that rejects is an unhandled rejection. *)
Definition settle_floating (r : Run unit) : World :=
  detached r match outcome r with
             | inl e => rejected e (at_return r)
             | inr _ => at_return r
             end.

Section Core.

Variable this : PuppetBridge.

(** *** Persistence

    Modelled from the spec: the stores ([src/db/roomstore.ts],
    [userstore.ts], [puppetstore.ts], [src/store.ts]) are not among the
    sources.  The spec gives them as simple keyed storage with
    get/set/delete/list by (puppetId, remoteId) or by target id, plus
    "list all for puppet"; uniqueness per (puppetId, remoteId) is said not
    to come from storage, so the room table is keyed by room id.  The file
    cache is keyed by fingerprint: the locator itself, or the digest of the
    bytes.  Deleting a room also deletes its operator record (the comment
    at the [roomStore.delete] call); deleting a user deletes its room
    overrides (spec, data model). *)

Definition file_key (thing : string + Buffer) : string :=
  match thing with
  | inl locator => locator
  | inr buffer => Util_HashBuffer this buffer
  end.

Definition rows {K} `{Countable K} {V} (m : gmap K V) : list V := (map_to_list m).*2.

Definition getByRemote (puppetId : Z) (roomId : string)
    (m : gmap string IRoomStoreEntry) : option IRoomStoreEntry :=
  head (List.filter
          (fun e => Z.eqb (e_puppetId e) puppetId && String.eqb (e_roomId e) roomId)
          (rows m)).

Definition getByPuppetId (puppetId : Z) (m : gmap string IRoomStoreEntry)
    : list IRoomStoreEntry :=
  List.filter (fun e => Z.eqb (e_puppetId e) puppetId) (rows m).

Definition getAllRoomOverrides (puppetId : Z) (userId : string)
    (m : gmap (Z * string * string) IUserStoreRoomOverrideEntry)
    : list IUserStoreRoomOverrideEntry :=
  List.filter
    (fun e => Z.eqb (o_puppetId e) puppetId && String.eqb (o_userId e) userId)
    (rows m).

Definition without_overrides_of (puppetId : Z) (userId : string)
    (m : gmap (Z * string * string) IUserStoreRoomOverrideEntry)
    : gmap (Z * string * string) IUserStoreRoomOverrideEntry :=
  filter (fun kv => ¬ (kv.1.1.1 = puppetId ∧ kv.1.1.2 = userId)) m.

Definition getGhostsInRoom (room : string) (m : gmap string (list string)) : list string :=
  default [] (m !! room).

(** Answering an awaited call when the caller runs on its own.  A wait on a
    held key ends by the lock's timeout, which releases the key. *)
Definition handle (O : Oracle) (c : Call) (w0 : World) : World * (JsError + result c) :=
  let w := traced c w0 in
  match c as c0 return World * (JsError + result c0) with
  | next_turn => (w, inr tt)
  | holder_released l key =>
      (logged warn "Lock timed out" (set_holders l (holders l w ∖ {[key]}) w), inr tt)
  | roomStore_getByRemote p r => (w, inr (getByRemote p r (roomStore w)))
  | roomStore_getByMxid mxid => (w, inr (roomStore w !! mxid))
  | roomStore_getByPuppetId p => (w, inr (getByPuppetId p (roomStore w)))
  | roomStore_set e =>
      (set_rooms (<[e_mxid e := e]> (roomStore w)) (roomOps w) w, inr tt)
  | roomStore_delete e =>
      (set_rooms (delete (e_mxid e) (roomStore w)) (delete (e_mxid e) (roomOps w)) w,
       inr tt)
  | roomStore_getRoomOp mxid => (w, inr (roomOps w !! mxid))
  | roomStore_setRoomOp mxid userId =>
      (set_rooms (roomStore w) (<[mxid := userId]> (roomOps w)) w, inr tt)
  | userStore_get p u => (w, inr (userStore w !! (p, u)))
  | userStore_set e =>
      (set_users (<[(s_puppetId e, s_userId e) := e]> (userStore w)) (roomOverrides w) w,
       inr tt)
  | userStore_delete p u =>
      (set_users (delete (p, u) (userStore w))
         (without_overrides_of p u (roomOverrides w)) w, inr tt)
  | userStore_getRoomOverride p u r => (w, inr (roomOverrides w !! (p, u, r)))
  | userStore_setRoomOverride e =>
      (set_users (userStore w)
         (<[(o_puppetId e, o_userId e, o_roomId e) := e]> (roomOverrides w)) w, inr tt)
  | userStore_getAllRoomOverrides p u =>
      (w, inr (getAllRoomOverrides p u (roomOverrides w)))
  | store_getFileMxc thing => (w, inr (fst <$> fileStore w !! file_key thing))
  | store_setFileMxc thing mxcUrl filename =>
      (set_files (<[file_key thing := (mxcUrl, filename)]> (fileStore w)) w, inr tt)
  | puppetStore_getGhostsInRoom room =>
      (w, inr (getGhostsInRoom room (ghostsInRoom w)))
  | puppetStore_leaveGhostFromRoom userMxid roomMxid =>
      (set_ghosts
         (<[roomMxid := List.filter (fun g => negb (String.eqb g userMxid))
                          (getGhostsInRoom roomMxid (ghostsInRoom w))]> (ghostsInRoom w)) w,
       inr tt)
  | puppetStore_emptyGhostsInRoom room =>
      (set_ghosts (delete room (ghostsInRoom w)) w, inr tt)
  | provisioner_get p => (w, inr (puppets w !! p))
  | provisioner_getToken (inl p) => (w, inr (puppetTokens w !! p))
  | provisioner_getToken (inr mxid) => (w, inr (mxidTokens w !! mxid))
  | external => (ticked w, O (tick w) external)
  end.

(** Is the call answered by persistence (true) or by the oracle? *)
Definition is_persistence (c : Call) : bool :=
  match c with
  | roomStore_getByRemote _ _ | roomStore_getByMxid _ | roomStore_getByPuppetId _
  | roomStore_set _ | roomStore_delete _ | roomStore_getRoomOp _
  | roomStore_setRoomOp _ _
  | userStore_get _ _ | userStore_set _ | userStore_delete _ _
  | userStore_getRoomOverride _ _ _ | userStore_setRoomOverride _
  | userStore_getAllRoomOverrides _ _
  | store_getFileMxc _ | store_setFileMxc _ _ _
  | puppetStore_getGhostsInRoom _ | puppetStore_leaveGhostFromRoom _ _
  | puppetStore_emptyGhostsInRoom _
  | provisioner_get _ | provisioner_getToken _ => true
  | _ => false
  end.

Definition act (a : Act) (w : World) : World * act_result a :=
  match a as a0 return World * act_result a0 with
  | lock_has l key => (w, bool_decide (key ∈ holders l w))
  | lock_set l key => (set_holders l ({[key]} ∪ holders l w) w, tt)
  | lock_release l key => (set_holders l (holders l w ∖ {[key]}) w, tt)
  | log lvl msg => (logged lvl msg w, tt)
  end.

(** One call, run from start to end with nothing else interleaved. *)
Fixpoint exec (O : Oracle) {A : Type} (p : Prog A) (w : World) : Run A :=
  match p with
  | Ret a => ran w (inr a) (fun w' => w')
  | Throw e => ran w (inl e) (fun w' => w')
  | Do a k => let '(w1, r) := act a w in exec O (k r) w1
  | Await c k => let '(w1, r) := handle O c w in exec O (k r) w1
  | Fork bg k =>
      let r := exec O k w in
      ran (at_return r) (outcome r)
          (fun w' => detached r (settle_floating (exec O bg w')))
  end.

(** *** The keyed lock ([src/structures/lock.ts])

    Modelled from the spec: the lock's code is not among the sources.
    "[wait(key)] suspends the caller until no holder is registered for
    [key] or a bounded timeout elapses; [set(key)] registers the caller as
    holder; [release(key)] clears it and wakes waiters."  [wait] looks at
    the holder when it is called.  With no holder its promise is already
    settled, and the caller's [await] resumes on a later turn of the event
    loop ([next_turn]); with a holder the caller resumes once the key has
    been released or has timed out ([holder_released]).  Either way the
    awaited [wait] is a suspension point (spec, section 5). *)

Definition Lock_wait (l : LockId) (key : string) : Prog unit :=
  held <- perform (lock_has l key) ;;
  if held then call (holder_released l key) else call next_turn.

Definition Lock_set (l : LockId) (key : string) : Prog unit := perform (lock_set l key).

Definition Lock_release (l : LockId) (key : string) : Prog unit :=
  perform (lock_release l key).

(** * PuppetBridge ([src/puppetbridge.ts]) *)

(** [thing.match(/\/([^\.\/]+\.[a-zA-Z0-9]+)(?:$|\?)/)], group 1.  Both
    character classes are followed by a character outside them, so the
    greedy runs are the only candidates at a given slash. *)
Definition is_alnum (c : ascii) : bool :=
  let n := nat_of_ascii c in
  ((48 <=? n) && (n <=? 57) || (65 <=? n) && (n <=? 90) || (97 <=? n) && (n <=? 122))%nat.

Definition not_dot_slash (c : ascii) : bool :=
  negb (Ascii.eqb c "."%char || Ascii.eqb c "/"%char).

Fixpoint span (f : ascii -> bool) (s : string) : string * string :=
  match s with
  | EmptyString => (EmptyString, EmptyString)
  | String c s' =>
      if f c then let '(a, b) := span f s' in (String c a, b)
      else (EmptyString, s)
  end.

Definition filename_at (after_slash : string) : option string :=
  let '(stem, rest) := span not_dot_slash after_slash in
  match stem, rest with
  | EmptyString, _ => None
  | _, String "." rest' =>
      let '(ext, rest'') := span is_alnum rest' in
      match ext, rest'' with
      | EmptyString, _ => None
      | _, EmptyString | _, String "?" _ => Some (stem +:+ "." +:+ ext)
      | _, _ => None
      end
  | _, _ => None
  end.

Fixpoint filename_of_url (url : string) : option string :=
  match url with
  | EmptyString => None
  | String c url' =>
      match (if Ascii.eqb c "/"%char then filename_at url' else None) with
      | Some f => Some f
      | None => filename_of_url url'
      end
  end.

(** The [catch] block of [uploadContent].  [locks] is a local array the
    handler reads, so the handler is instantiated with the array as it is
    at the awaited call that throws. *)
Definition uploadContent_catch {A : Type} (locks : list string) (err : JsError) : Prog A :=
  perform (log error "Failed to upload media") ;;
  for_of locks (Lock_release mxcLookupLock) ;;
  Throw err.

Definition in_try {A : Type} (locks : list string) (p : Prog A) : Prog A :=
  try_catch p (uploadContent_catch locks).

(** The block after the [if (typeof thing === "string")] statement. *)
Definition uploadContent_buffer (client : MatrixClient) (thing : string + Buffer)
    (locks : list string) (buffer : Buffer) (mimetype filename : option string)
    : Prog string :=
  let hash := Util_HashBuffer this buffer in
  in_try locks (Lock_wait mxcLookupLock hash) ;;
  let locks := (locks ++ [hash])%list in
  Lock_set mxcLookupLock hash ;;
  maybeMxcUrl <- in_try locks (call (store_getFileMxc (inl hash))) ;;
  if truthy maybeMxcUrl then Ret (default "" maybeMxcUrl)
  else
    let filename := if truthy filename then default "" filename else "file" in
    let mimetype := if truthy mimetype then default "" mimetype
                    else Util_GetMimeType this buffer in
    mxcUrl <- in_try locks (call (client_uploadContent client buffer mimetype filename)) ;;
    match thing with
    | inl locator => in_try locks (call (store_setFileMxc (inl locator) mxcUrl filename))
    | inr _ => Ret tt
    end ;;
    in_try locks (call (store_setFileMxc (inr buffer) mxcUrl filename)) ;;
    (* we need to remove all locks *)
    for_of locks (Lock_release mxcLookupLock) ;;
    Ret mxcUrl.

Definition uploadContent (client : option MatrixClient) (thing : string + Buffer)
    (mimetype filename : option string) : Prog string :=
  let client := default (underlyingClient botIntent) client in
  match thing with
  | inl locator =>
      in_try [] (Lock_wait mxcLookupLock locator) ;;
      let locks := [locator] in
      Lock_set mxcLookupLock locator ;;
      maybeMxcUrl <- in_try locks (call (store_getFileMxc (inl locator))) ;;
      if truthy maybeMxcUrl then Ret (default "" maybeMxcUrl)
      else
        let filename :=
          if truthy filename then filename
          else match filename_of_url locator with
               | Some m => Some m
               | None => filename
               end in
        buffer <- in_try locks (call (Util_DownloadFile locator)) ;;
        uploadContent_buffer client thing locks buffer mimetype filename
  | inr buffer => uploadContent_buffer client thing [] buffer mimetype filename
  end.

(** * UserSyncroniser, first part ([src/usersyncroniser.ts]) *)

Definition getClientFromTokenCallback (token : option ITokenResponse)
    : Prog (option MatrixClient) :=
  match token with
  | None => Ret None
  | Some t =>
      let client := NewMatrixClient t in
      try_catch
        (call (client_getUserId client) ;;
         Ret (Some client))
        (fun err =>
           perform (log verbose "Invalid client config") ;;
           Ret None)
  end.

(** The regular expression of [getPartsFromMxid] on a suffix: anchored at
    the start, one or more decimal digits (group 1), an underscore, then
    any characters up to the end of the line (group 2).  The strings here
    are 8-bit, so the line terminators the dot stops at are LF and CR. *)
Definition is_digit (c : ascii) : bool :=
  let n := nat_of_ascii c in ((48 <=? n) && (n <=? 57))%nat.

Definition not_line_terminator (c : ascii) : bool :=
  negb (Ascii.eqb c "010"%char || Ascii.eqb c "013"%char).

Definition match_puppet_suffix (suffix : string) : option (string * string) :=
  let '(digits, rest) := span is_digit suffix in
  match digits, rest with
  | EmptyString, _ => None
  | _, String "_" rest' => Some (digits, fst (span not_line_terminator rest'))
  | _, _ => None
  end.

(** [Number(s)] on a string of decimal digits, the only strings it is
    applied to; [None] stands for NaN.  (Exact below 2^53.) *)
Fixpoint digits_value (acc : Z) (s : string) : option Z :=
  match s with
  | EmptyString => Some acc
  | String c s' =>
      if is_digit c
      then digits_value (10 * acc + Z.of_nat (nat_of_ascii c - 48)) s'
      else None
  end.

Definition Number (s : string) : option Z :=
  match s with
  | EmptyString => None
  | _ => digits_value 0 s
  end.

Definition UserSyncroniser_getPartsFromMxid (mxid : string) : option IRemoteUser :=
  match AS_getSuffixForUserId this mxid with
  | None => None
  | Some suffix =>
      if String.eqb suffix "" then None
      else
        match match_puppet_suffix suffix with
        | None => None
        | Some (m1, m2) =>
            let userId := Util_mxid2str this m2 in
            match Number m1 with
            | None => None
            | Some puppetId =>
                Some {| u_puppetId := puppetId; u_userId := userId; u_name := None;
                        u_avatarUrl := None; u_roomOverrides := None |}
            end
        end
  end.

Definition UserSyncroniser_deleteForMxid (mxid : string) : Prog unit :=
  match UserSyncroniser_getPartsFromMxid mxid with
  | None => Ret tt
  | Some user =>
      perform (log info ("Deleting ghost " +:+ mxid)) ;;
      call (userStore_delete (u_puppetId user) (u_userId user))
  end.

(** * RoomSyncroniser ([src/roomsyncroniser.ts]) *)

Definition includes (l : list string) (x : string) : bool := bool_decide (x ∈ l).

Definition lockKey (puppetId : Z) (remoteId : string) : string :=
  pretty puppetId +:+ ";" +:+ remoteId.

Definition getRoomOp (room : string) : Prog (option MatrixClient) :=
  mxid <- call (roomStore_getRoomOp room) ;;
  if negb (truthy mxid) then Ret None
  else
    let mxid := default "" mxid in
    if negb (AS_isNamespacedUser this mxid) then
      token <- call (provisioner_getToken (inr mxid)) ;;
      getClientFromTokenCallback token
    else Ret (Some (underlyingClient (IntentForUserId mxid))).

Definition maybeGet (puppetId : Z) (roomId : string) : Prog (option IRoomStoreEntry) :=
  Lock_wait mxidLock (lockKey puppetId roomId) ;;
  call (roomStore_getByRemote puppetId roomId).

Definition maybeGetMxid (puppetId : Z) (roomId : string) : Prog (option string) :=
  room <- maybeGet puppetId roomId ;;
  match room with
  | None => Ret None
  | Some room => Ret (Some (e_mxid room))
  end.

(** The locals of [getMxid] that outlive the [if (!room)] statement. *)
Record getMxid_locals := {
  l_room : IRoomStoreEntry;
  l_mxid : string;
  l_doUpdate : bool;
  l_created : bool;
  l_removeGroup : option string;
  l_addGroup : option string }.

(** let's fetch the create data via hook *)
Definition getMxid_hook (data : IRemoteRoom) : Prog IRemoteRoom :=
  if hooks_createRoom_set this then
    perform (log verbose "Fetching new override data...") ;;
    newData <- call (hooks_createRoom data) ;;
    match newData with
    | Some newData =>
        if Z.eqb (r_puppetId newData) (r_puppetId data)
           && String.eqb (r_roomId newData) (r_roomId data)
        then Ret newData
        else perform (log warn "Override data is malformed!") ;; Ret data
    | None => perform (log warn "Override data is malformed!") ;; Ret data
    end
  else Ret data.

Definition createParams_of (data : IRemoteRoom) (invites : option (list string))
    (updateProfile : IProfileDbEntry) : CreateParams :=
  {| visibility := "private";
     preset := "private_chat";
     power_level_content_override :=
       [("notifications", [("room", 0)]); ("events", [("im.vector.user_status", 0)])];
     is_direct := r_isDirect data;
     invite := invites;
     initial_state :=
       (match d_avatarMxc updateProfile with
        | Some url => [("m.room.avatar", c_url (Some url))]
        | None => []
        end ++
        if truthy (r_topic data)
        then [("m.room.topic", c_topic (default "" (r_topic data)))]
        else [])%list;
     room_alias_name :=
       if negb (r_isDirect data)
       then Some (AS_getAliasLocalpartForSuffix this
                    (pretty (r_puppetId data) +:+ "_" +:+ Util_str2mxid this (r_roomId data)))
       else None;
     cp_name := d_name updateProfile |}.

(** The creating branch, after the hook. *)
Definition getMxid_create (data : IRemoteRoom) (client : MatrixClient)
    (invites : option (list string)) : Prog getMxid_locals :=
  updateProfile <- Util_ProcessProfileUpdate this None (room_profile data)
                     (namePatterns_room this)
                     (fun buffer mimetype filename =>
                        uploadContent (Some client) (inr buffer) mimetype filename) ;;
  perform (log verbose "Creation data:") ;;
  perform (log verbose "Initial invites:") ;;
  let createParams := createParams_of data invites updateProfile in
  perform (log verbose "Creating room with create parameters") ;;
  mxid <- call (client_createRoom client createParams) ;;
  userId <- call (client_getUserId client) ;;
  call (roomStore_setRoomOp mxid userId) ;;
  let groupId := if truthy (r_groupId data) then r_groupId data else None in
  let room :=
    {| e_mxid := mxid; e_roomId := r_roomId data; e_puppetId := r_puppetId data;
       e_profile := assign_profile no_profile updateProfile;
       e_topic := if truthy (r_topic data) then r_topic data else None;
       e_groupId := groupId |} in
  Ret {| l_room := room; l_mxid := mxid; l_doUpdate := true; l_created := true;
         l_removeGroup := None; l_addGroup := groupId |}.

Definition when (b : bool) (p : Prog unit) : Prog unit := if b then p else Ret tt.

Definition isSome {X : Type} (o : option X) : bool :=
  match o with Some _ => true | None => false end.

(** The branch for a room that has a mapping. *)
Definition getMxid_update (data : IRemoteRoom) (client : MatrixClient)
    (room : IRoomStoreEntry) : Prog getMxid_locals :=
  let mxid := e_mxid room in
  (* set new client for potential updates *)
  newClient <- getRoomOp mxid ;;
  let client := default client newClient in
  updateProfile <- Util_ProcessProfileUpdate this (Some (e_profile room)) (room_profile data)
                     (namePatterns_room this)
                     (fun buffer mimetype filename =>
                        uploadContent (Some client) (inr buffer) mimetype filename) ;;
  let profile := assign_profile (e_profile room) updateProfile in
  when (isSome (d_name updateProfile))
    (perform (log verbose "Updating name") ;;
     call (client_sendStateEvent client mxid "m.room.name" "" (c_name (d_name profile))) ;;
     Ret tt) ;;
  when (isSome (d_avatarMxc updateProfile))
    (perform (log verbose "Updating avatar") ;;
     call (client_sendStateEvent client mxid "m.room.avatar" "" (c_url (d_avatarMxc profile))) ;;
     Ret tt) ;;
  let newTopic := defined_and_differs (r_topic data) (e_topic room) in
  when newTopic
    (perform (log verbose "updating topic") ;;
     call (client_sendStateEvent client mxid "m.room.topic" ""
             (c_topic (default "" (r_topic data)))) ;;
     Ret tt) ;;
  let newGroup := defined_and_differs (r_groupId data) (e_groupId room) in
  Ret {| l_room :=
           {| e_mxid := mxid; e_roomId := e_roomId room; e_puppetId := e_puppetId room;
              e_profile := profile;
              e_topic := if newTopic then r_topic data else e_topic room;
              e_groupId := if newGroup then r_groupId data else e_groupId room |};
         l_mxid := mxid;
         l_doUpdate := isSome (d_name updateProfile) || isSome (d_avatarMxc updateProfile)
                       || newTopic || newGroup;
         l_created := false;
         l_removeGroup := if newGroup then e_groupId room else None;
         l_addGroup := if newGroup then r_groupId data else None |}.

(** From [if (doUpdate)] to the [return] at the end of the [try] block. *)
Definition getMxid_finish (key : string) (l : getMxid_locals) : Prog (string * bool) :=
  when (l_doUpdate l)
    (perform (log verbose "Storing update to DB") ;;
     call (roomStore_set (l_room l))) ;;
  Lock_release mxidLock key ;;
  (* update associated group only after releasing the lock *)
  (if groupSyncEnabled this then
     when (truthy (l_removeGroup l))
       (call (groupSync_removeRoomFromGroup (default "" (l_removeGroup l))
                (e_puppetId (l_room l)) (e_roomId (l_room l)))) ;;
     when (truthy (l_addGroup l))
       (call (groupSync_addRoomToGroup (default "" (l_addGroup l))
                (e_puppetId (l_room l)) (e_roomId (l_room l))))
   else perform (log verbose "Group sync is disabled")) ;;
  perform (log verbose "Returning mxid") ;;
  Ret (l_mxid l, l_created l).

Definition getMxid_catch {A : Type} (key : string) (err : JsError) : Prog A :=
  perform (log error "Error fetching mxid:") ;;
  Lock_release mxidLock key ;;
  Throw err.

Definition getMxid (data : IRemoteRoom) (client : option MatrixClient)
    (invites : option (list string)) (doCreate : bool) : Prog (string * bool) :=
  let key := lockKey (r_puppetId data) (r_roomId data) in
  Lock_wait mxidLock key ;;
  Lock_set mxidLock key ;;
  perform (log info ("Fetching mxid for roomId " +:+ r_roomId data +:+
                     " and puppetId " +:+ pretty (r_puppetId data))) ;;
  try_catch
    (let client := default (underlyingClient botIntent) client in
     room <- call (roomStore_getByRemote (r_puppetId data) (r_roomId data)) ;;
     match room with
     | None =>
         if negb doCreate then
           Lock_release mxidLock key ;;
           Ret ("", false)
         else
           perform (log info "Channel doesn't exist yet, creating entry...") ;;
           data <- getMxid_hook data ;;
           l <- getMxid_create data client invites ;;
           getMxid_finish key l
     | Some room =>
         l <- getMxid_update data client room ;;
         getMxid_finish key l
     end)
    (getMxid_catch key).

Definition insert (mxid : string) (roomData : IRemoteRoom) : Prog unit :=
  let key := lockKey (r_puppetId roomData) (r_roomId roomData) in
  Lock_wait mxidLock key ;;
  Lock_set mxidLock key ;;
  call (roomStore_set {| e_mxid := mxid; e_roomId := r_roomId roomData;
                         e_puppetId := r_puppetId roomData; e_profile := no_profile;
                         e_topic := None; e_groupId := None |}) ;;
  Lock_release mxidLock key.

Definition remote_room (puppetId : Z) (roomId : string) : IRemoteRoom :=
  {| r_puppetId := puppetId; r_roomId := roomId; r_isDirect := false; r_topic := None;
     r_groupId := None; r_name := None; r_avatarUrl := None |}.

Definition starts_with_bang (mxid : string) : bool :=
  match mxid with
  | String "!" _ => true
  | _ => false
  end.

Definition getPartsFromMxid (mxid : string) : Prog (option IRemoteRoom) :=
  if starts_with_bang mxid then
    room <- call (roomStore_getByMxid mxid) ;;
    match room with
    | None => Ret None
    | Some room => Ret (Some (remote_room (e_puppetId room) (e_roomId room)))
    end
  else
    match AS_getSuffixForAlias this mxid with
    | None => Ret None
    | Some suffix =>
        if String.eqb suffix "" then Ret None
        else
          match match_puppet_suffix suffix with
          | None => Ret None
          | Some (m1, m2) =>
              let roomId := Util_mxid2str this m2 in
              match Number m1 with
              | None => Ret None
              | Some puppetId => Ret (Some (remote_room puppetId roomId))
              end
          end
    end.

(** [powerLevels.users[newOp] = powerLevels.users[oldOp]]; dereferencing a
    missing [users] throws. *)
Definition give_power (powerLevels : Content) (newOp oldOp : string) : Prog Content :=
  match powerLevels with
  | c_power_levels (Some users) rest =>
      Ret (c_power_levels (Some (partial_alter (fun _ => users !! oldOp) newOp users)) rest)
  | _ => Throw TypeError
  end.

Definition maybeLeaveGhost (roomMxid userMxid : string) : Prog unit :=
  perform (log info ("Maybe leaving ghost " +:+ userMxid +:+ " from " +:+ roomMxid)) ;;
  ghosts <- call (puppetStore_getGhostsInRoom roomMxid) ;;
  if negb (includes ghosts userMxid) then
    perform (log verbose "Ghost not in room!")
  else if Nat.eqb (length ghosts) 1 then
    perform (log verbose "Ghost is the only one in the room!")
  else
    let intent := IntentForUserId userMxid in
    let client := underlyingClient intent in
    oldOp <- call (roomStore_getRoomOp roomMxid) ;;
    passed <-
      (if bool_decide (oldOp = Some userMxid) then
         (* we need to get a new OP! *)
         perform (log verbose "We are the OP in the room, we need to pass on OP") ;;
         let newOp := List.find (fun element => negb (String.eqb element userMxid)) ghosts in
         if negb (truthy newOp) then
           perform (log verbose "Noone to pass OP to!") ;;
           Ret false
         else
           let newOp := default "" newOp in
           perform (log verbose ("Giving OP to " +:+ newOp +:+ "...")) ;;
           try_catch
             (powerLevels <- call (client_getRoomStateEvent client roomMxid
                                     "m.room.power_levels" "") ;;
              powerLevels <- give_power powerLevels newOp userMxid ;;
              call (client_sendStateEvent client roomMxid "m.room.power_levels" ""
                      powerLevels) ;;
              call (roomStore_setRoomOp roomMxid newOp) ;;
              Ret true)
             (fun err =>
                perform (log error "Couldn't set new room OP") ;;
                Ret false)
       else Ret true) ;;
    if passed then
      (* and finally we passed all checks and can leave *)
      call (intent_leaveRoom intent roomMxid) ;;
      call (puppetStore_leaveGhostFromRoom userMxid roomMxid)
    else Ret tt.

Definition remove_aliases (opClient : MatrixClient) (entry : IRoomStoreEntry) : Prog unit :=
  try_catch
    (perform (log info "Removing old aliases from room...") ;;
     (* first remove the canonical alias *)
     call (client_sendStateEvent opClient (e_mxid entry) "m.room.canonical_alias" ""
             c_empty) ;;
     (* next fetch all aliases and remove the ones we can *)
     try_catch
       (aliases <- call (client_getRoomStateEvent opClient (e_mxid entry) "m.room.aliases"
                           (config_bridge_domain this)) ;;
        match aliases with
        | c_aliases (Some l) =>
            for_of l (fun alias => call (client_deleteRoomAlias opClient alias))
        | _ => Throw TypeError
        end)
       (fun err => perform (log info "No aliases set")))
    (fun err => perform (log error "Error removing old aliases")).

Definition remove_ghost (keepUsers : bool) (entry : IRoomStoreEntry) (ghost : string)
    : Prog unit :=
  when (negb keepUsers) (UserSyncroniser_deleteForMxid ghost) ;;
  let intent := IntentForUserId ghost in
  try_catch
    (call (intent_leaveRoom intent (e_mxid entry)))
    (fun err => perform (log warn "Failed to trigger client leave room")).

(** The body of the loop of [deleteEntries]. *)
Definition deleteEntry (keepUsers : bool) (entry : IRoomStoreEntry) : Prog unit :=
  (* first we clean up the room *)
  opClient <- getRoomOp (e_mxid entry) ;;
  match opClient with
  | Some opClient => remove_aliases opClient entry
  | None => Ret tt
  end ;;
  (* delete from DB (also OP store), cache and trigger ghosts to quit *)
  call (roomStore_delete entry) ;;
  perform (log info "Removing bot client from room....") ;;
  botRooms <- call (intent_getJoinedRooms botIntent) ;;
  when (includes botRooms (e_mxid entry))
    (try_catch
       (call (intent_leaveRoom botIntent (e_mxid entry)))
       (fun err => perform (log warn "Failed to make bot client leave"))) ;;
  perform (log info "Removing ghosts from room....") ;;
  ghosts <- call (puppetStore_getGhostsInRoom (e_mxid entry)) ;;
  for_of ghosts (remove_ghost keepUsers entry) ;;
  call (puppetStore_emptyGhostsInRoom (e_mxid entry)).

Definition deleteEntries (entries : list IRoomStoreEntry) (keepUsers : bool) : Prog unit :=
  perform (log info "Deleting entries") ;;
  for_of entries (deleteEntry keepUsers).

Definition RoomSyncroniser_delete (data : IRemoteRoom) (keepUsers : bool) : Prog unit :=
  room <- maybeGet (r_puppetId data) (r_roomId data) ;;
  match room with
  | None => Ret tt
  | Some room => deleteEntries [room] keepUsers
  end.

Definition deleteForMxid (mxid : string) : Prog unit :=
  room <- call (roomStore_getByMxid mxid) ;;
  match room with
  | None => Ret tt
  | Some room => deleteEntries [room] false
  end.

Definition deleteForPuppet (puppetId : Z) : Prog unit :=
  entries <- call (roomStore_getByPuppetId puppetId) ;;
  deleteEntries entries false.

(** * UserSyncroniser, second part *)

Definition getIntentForSuffix (puppetId : Z) (userId : string) : Intent :=
  IntentForUserId
    (AS_getUserIdForSuffix this (pretty puppetId +:+ "_" +:+ Util_str2mxid this userId)).

(** [puppetData && puppetData.userId === data.userId] *)
Definition is_puppet_of (puppetData : option IPuppet) (userId : string) : bool :=
  match puppetData with
  | Some p => bool_decide (pp_userId p = Some userId)
  | None => false
  end.

Definition maybeGetClient (data : IRemoteUser) : Prog (option MatrixClient) :=
  perform (log silly "Maybe getting the client") ;;
  puppetData <- call (provisioner_get (u_puppetId data)) ;;
  puppetClient <-
    (if is_puppet_of puppetData (u_userId data) then
       token <- call (provisioner_getToken (inl (u_puppetId data))) ;;
       getClientFromTokenCallback token
     else Ret None) ;;
  match puppetClient with
  | Some puppetClient => Ret (Some puppetClient)
  | None =>
      user <- call (userStore_get (u_puppetId data) (u_userId data)) ;;
      match user with
      | None => Ret None
      | Some _ =>
          let intent := getIntentForSuffix (u_puppetId data) (u_userId data) in
          call (intent_ensureRegistered intent) ;;
          Ret (Some (underlyingClient intent))
      end
  end.

Definition getPuppetClient (puppetId : Z) : Prog (option MatrixClient) :=
  token <- call (provisioner_getToken (inl puppetId)) ;;
  getClientFromTokenCallback token.

Definition remote_user_of_entry (user : IUserStoreEntry) : IRemoteUser :=
  {| u_puppetId := s_puppetId user; u_userId := s_userId user;
     u_name := d_name (s_profile user); u_avatarUrl := d_avatarUrl (s_profile user);
     u_roomOverrides := None |}.

Definition setRoomOverride (userData : IRemoteUser) (roomId : string)
    (roomOverrideData : option IUserStoreRoomOverrideEntry)
    (client : option MatrixClient) (origUserData : option IUserStoreEntry) : Prog unit :=
  perform (log info ("Setting room override for puppet " +:+ pretty (u_puppetId userData)
                     +:+ " " +:+ u_userId userData +:+ " in " +:+ roomId +:+ "...")) ;;
  client <- match client with
            | Some c => Ret (Some c)
            | None => maybeGetClient userData
            end ;;
  match client with
  | None => perform (log warn "No client found")
  | Some client =>
      origUserData <- match origUserData with
                      | Some u => Ret (Some u)
                      | None => call (userStore_get (u_puppetId userData) (u_userId userData))
                      end ;;
      match origUserData with
      | None => perform (log warn "Original user data not found")
      | Some origUserData =>
          roomOverrideData <-
            match roomOverrideData with
            | Some o => Ret (Some o)
            | None => call (userStore_getRoomOverride (u_puppetId userData)
                              (u_userId userData) roomId)
            end ;;
          match roomOverrideData with
          | None => perform (log warn "No room override data found")
          | Some roomOverrideData =>
              roomMxid <- maybeGetMxid (u_puppetId userData) roomId ;;
              if negb (truthy roomMxid) then perform (log warn "Room MXID not found")
              else
                let roomMxid := default "" roomMxid in
                let memberContent :=
                  c_member
                    (or_else (d_name (o_profile roomOverrideData))
                             (d_name (s_profile origUserData)))
                    (or_else (d_avatarMxc (o_profile roomOverrideData))
                             (d_avatarMxc (s_profile origUserData))) in
                userId <- call (client_getUserId client) ;;
                call (client_sendStateEvent client roomMxid "m.room.member" userId
                        memberContent) ;;
                Ret tt
          end
      end
  end.

(** The inner [catch] of [updateRoomOverride]: [err.body.errcode] is read
    off the error, which throws when the error has no [body]. *)
Definition updateRoomOverride_forbidden (err : JsError) : Prog unit :=
  match err with
  | MatrixError errcode =>
      if negb (String.eqb errcode "M_FORBIDDEN") then Throw err else Ret tt
  | PlainError _ => Throw TypeError
  end.

Definition updateRoomOverride (client : MatrixClient) (userData : IRemoteUser)
    (roomId : string) (roomOverride : IRemoteProfile)
    (origUserData : option IUserStoreEntry) : Prog unit :=
  try_catch
    (perform (log info ("Updating room override for puppet "
                        +:+ pretty (u_puppetId userData) +:+ " " +:+ u_userId userData
                        +:+ " in " +:+ roomId)) ;;
     user <- call (userStore_getRoomOverride (u_puppetId userData) (u_userId userData)
                     roomId) ;;
     newRoomOverride <-
       Util_ProcessProfileUpdate this (o_profile <$> user) roomOverride
         (namePatterns_userOverride this)
         (fun buffer mimetype filename =>
            uploadContent (Some client) (inr buffer) mimetype filename) ;;
     perform (log verbose "Update data") ;;
     let user :=
       default {| o_puppetId := u_puppetId userData; o_userId := u_userId userData;
                  o_roomId := roomId; o_profile := no_profile |} user in
     let user :=
       {| o_puppetId := o_puppetId user; o_userId := o_userId user;
          o_roomId := o_roomId user;
          o_profile := assign_profile (o_profile user) newRoomOverride |} in
     if isSome (d_name newRoomOverride) || isSome (d_avatarMxc newRoomOverride) then
       try_catch
         (* ok, let's set the override *)
         (setRoomOverride userData roomId (Some user) (Some client) origUserData)
         updateRoomOverride_forbidden ;;
       (* aaaaand then update the DB *)
       call (userStore_setRoomOverride user)
     else Ret tt)
    (fun err =>
       perform (log error ("Error setting room overrides for " +:+ u_userId userData
                           +:+ " in " +:+ roomId +:+ ":"))).

(** [Promise.all] over promises that are already running: each one settles,
    and the result rejects with a rejection among them. *)
Fixpoint Promise_all (promiseList : list (Prog unit)) : Prog unit :=
  match promiseList with
  | [] => Ret tt
  | p :: rest =>
      r <- try_catch (p ;; Ret None) (fun err => Ret (Some err)) ;;
      match r with
      | None => Promise_all rest
      | Some err => try_catch (Promise_all rest) (fun _ => Ret tt) ;; Throw err
      end
  end.

(** let's fetch the create data via hook *)
Definition getClient_hook (data : IRemoteUser) : Prog IRemoteUser :=
  if hooks_createUser_set this then
    perform (log verbose "Fetching new override data...") ;;
    newData <- call (hooks_createUser data) ;;
    match newData with
    | Some newData =>
        if String.eqb (u_userId newData) (u_userId data)
           && Z.eqb (u_puppetId newData) (u_puppetId data)
        then Ret newData
        else perform (log warn "Override data is malformed!") ;; Ret data
    | None => perform (log warn "Override data is malformed!") ;; Ret data
    end
  else Ret data.

(** What [getClient] leaves running when it returns: the chain
    [Promise.all(promiseList).catch(..).then(..)]. *)
Definition getClient_background (data : IRemoteUser) (client : MatrixClient)
    (user : IUserStoreEntry) (promiseList : list (Prog unit)) : Prog unit :=
  try_catch (Promise_all promiseList)
    (fun err => perform (log error "Error updating profile")) ;;
  (* alright, now that we are done creating the user, let's check the room overrides *)
  let overrides := default [] (u_roomOverrides data) in
  let roomIdsNotToUpdate := fst <$> overrides in
  for_of overrides
    (fun '(roomId, roomOverride) =>
       perform (log verbose ("Got room override for room " +:+ roomId)) ;;
       floating (updateRoomOverride client data roomId roomOverride (Some user))) ;;
  if (0 <? length promiseList)%nat then
    (* name or avatar of the real profile changed, we need to re-apply all our room overrides *)
    roomOverrides <- call (userStore_getAllRoomOverrides (u_puppetId data) (u_userId data)) ;;
    for_of roomOverrides
      (fun roomOverride =>
         if includes roomIdsNotToUpdate (o_roomId roomOverride) then Ret tt
         else floating (setRoomOverride (remote_user_of_entry user) (o_roomId roomOverride)
                          (Some roomOverride) (Some client) (Some user)))
  else Ret tt.

(** The [try] block of [getClient] once [user] and [oldProfile] are known. *)
Definition getClient_sync (key : string) (data : IRemoteUser) (user : IUserStoreEntry)
    (oldProfile : option IProfileDbEntry) (doUpdate : bool) : Prog MatrixClient :=
  let intent := getIntentForSuffix (u_puppetId data) (u_userId data) in
  call (intent_ensureRegistered intent) ;;
  let client := underlyingClient intent in
  updateProfile <- Util_ProcessProfileUpdate this oldProfile (user_profile data)
                     (namePatterns_user this)
                     (fun buffer mimetype filename =>
                        uploadContent (Some client) (inr buffer) mimetype filename) ;;
  let user := {| s_puppetId := s_puppetId user; s_userId := s_userId user;
                 s_profile := assign_profile (s_profile user) updateProfile |} in
  let newName := isSome (d_name updateProfile) in
  let newAvatar := isSome (d_avatarMxc updateProfile) in
  when newName (perform (log verbose "Updating name")) ;;
  when newAvatar (perform (log verbose "Updating avatar")) ;;
  let promiseList :=
    ((if newName
      then [call (client_setDisplayName client (default "" (d_name (s_profile user))))]
      else []) ++
     (if newAvatar
      then [call (client_setAvatarUrl client (default "" (d_avatarMxc (s_profile user))))]
      else []))%list in
  when (doUpdate || newName || newAvatar)
    (perform (log verbose "Storing update to DB") ;;
     call (userStore_set user)) ;;
  Lock_release clientLock key ;;
  (* alright, let's wait for name and avatar changes finishing *)
  floating (getClient_background data client user promiseList) ;;
  perform (log verbose "Returning client") ;;
  Ret client.

Definition getClient_catch {A : Type} (key : string) (err : JsError) : Prog A :=
  perform (log error "Error fetching client:") ;;
  Lock_release clientLock key ;;
  Throw err.

(** now we fetch the ghost client *)
Definition getClient_ghost (data : IRemoteUser) : Prog MatrixClient :=
  let key := lockKey (u_puppetId data) (u_userId data) in
  Lock_wait clientLock key ;;
  Lock_set clientLock key ;;
  perform (log info ("Fetching client for " +:+ u_userId data)) ;;
  try_catch
    (user <- call (userStore_get (u_puppetId data) (u_userId data)) ;;
     match user with
     | None =>
         perform (log info "User doesn't exist yet, creating entry...") ;;
         data <- getClient_hook data ;;
         let user := {| s_puppetId := u_puppetId data; s_userId := u_userId data;
                        s_profile := no_profile |} in
         getClient_sync key data user None true
     | Some user => getClient_sync key data user (Some (s_profile user)) false
     end)
    (getClient_catch key).

Definition getClient (data : IRemoteUser) : Prog MatrixClient :=
  (* first we look if we can puppet this user to the matrix side *)
  perform (log silly "Start of getClient request") ;;
  puppetData <- call (provisioner_get (u_puppetId data)) ;;
  puppetClient <-
    (if is_puppet_of puppetData (u_userId data)
     then getPuppetClient (u_puppetId data)
     else Ret None) ;;
  match puppetClient with
  | Some puppetClient => Ret puppetClient
  | None => getClient_ghost data
  end.

End Core.

(** * Several calls in flight: the cooperative scheduler

    Spec, section 5: "many logically concurrent reconciliation requests
    run as independent tasks over a single cooperative scheduler;
    suspension occurs exactly at calls into a collaborator (transport,
    persistence, lock wait); between suspensions a reconciliation step runs
    uninterrupted".  A task is a program; a turn of a task answers the
    call it is suspended at and runs it on to its next [Await]. *)
Module Sched.

(** The calls in flight and the floating promises. *)
Record Pool (R : Type) := pool {
  calls : list (Prog R);
  floats : list (Prog unit) }.

Arguments pool {R} calls floats.
Arguments calls {R} p.
Arguments floats {R} p.

Inductive Choice :=
| run_call (i : nat)
| run_float (i : nat)
| expire (l : LockId) (key : string).

Section Sched.

Variable this : PuppetBridge.
Variable O : Oracle.

(** The synchronous stretch of a task, up to its next suspension point,
    with the promises it leaves floating on the way. *)
Fixpoint settle {A : Type} (p : Prog A) (w : World) : World * Prog A * list (Prog unit) :=
  match p with
  | Do a k => let '(w1, r) := act a w in settle (k r) w1
  | Fork bg k => let '(w1, p1, fs) := settle k w in (w1, p1, bg :: fs)
  | _ => (w, p, [])
  end.

(** A caller suspended on a held key stays suspended while the key has a
    holder; every other awaited call can be answered. *)
Definition enabled (c : Call) (w : World) : bool :=
  match c with
  | holder_released l key => negb (bool_decide (key ∈ holders l w))
  | _ => true
  end.

Definition answer (c : Call) (w : World) : World * (JsError + result c) :=
  match c as c0 return World * (JsError + result c0) with
  | holder_released l key => (traced (holder_released l key) w, inr tt)
  | c' => handle this O c' w
  end.

(** One turn of a task: [None] when it cannot move. *)
Definition turn {A : Type} (p : Prog A) (w : World) : option (World * Prog A * list (Prog unit)) :=
  match p with
  | Ret _ | Throw _ => None
  | Await c k =>
      if enabled c w then let '(w1, r) := answer c w in Some (settle (k r) w1)
      else None
  | _ => Some (settle p w)
  end.

(** The lock's timer: it releases the key. *)
Definition timed_out (l : LockId) (key : string) (w : World) : World :=
  if bool_decide (key ∈ holders l w)
  then logged warn "Lock timed out" (set_holders l (holders l w ∖ {[key]}) w)
  else w.

Definition step {R : Type} (ch : Choice) (s : World * Pool R) : World * Pool R :=
  let '(w, P) := s in
  match ch with
  | run_call i =>
      match calls P !! i with
      | Some p =>
          match turn p w with
          | Some (w1, p1, fs) => (w1, pool (<[i := p1]> (calls P)) (floats P ++ fs))
          | None => s
          end
      | None => s
      end
  | run_float i =>
      match floats P !! i with
      | Some p =>
          match turn p w with
          | Some (w1, Throw e, fs) =>
              (rejected e w1, pool (calls P) (<[i := Ret tt]> (floats P) ++ fs))
          | Some (w1, p1, fs) => (w1, pool (calls P) (<[i := p1]> (floats P) ++ fs))
          | None => s
          end
      | None => s
      end
  | expire l key => (timed_out l key w, P)
  end.

Definition run {R : Type} (schedule : list Choice) (s : World * Pool R) : World * Pool R :=
  fold_left (fun s ch => step ch s) schedule s.

(** What a call has settled to, if it has. *)
Definition settled {R : Type} (p : Prog R) : option (JsError + R) :=
  match p with
  | Ret a => Some (inr a)
  | Throw e => Some (inl e)
  | _ => None
  end.

End Sched.
End Sched.

(** * A concrete bridge, for evaluating the definitions *)

Definition empty_world : World :=
  {| held_mxid := ∅; held_client := ∅; held_mxc := ∅;
     roomStore := ∅; roomOps := ∅; userStore := ∅; roomOverrides := ∅;
     fileStore := ∅; ghostsInRoom := ∅;
     puppets := ∅; puppetTokens := ∅; mxidTokens := ∅;
     tick := 0; trace := []; logs := []; unhandled := [] |}.

(** Modelled from the spec: [Util.ProcessProfileUpdate] ([src/util.ts]) is
    not among the sources.  Spec, section 4.3: "Name: substitute observed
    fields into the template; include only if different from stored.
    Avatar: compare by content fingerprint, not by transient URL; only a
    genuine content change triggers a re-upload via the Upload Cache, and
    the new reference is the only thing returned."  The theorems below
    take the reconciler as a parameter; this one instantiates them. *)
Definition ProcessProfileUpdate_spec
    (format : string -> IRemoteProfile -> option string) (hash : Buffer -> string)
    (oldProfile : option IProfileDbEntry) (newProfile : IRemoteProfile)
    (namePattern : string)
    (uploadFn : Buffer -> option string -> option string -> Prog string)
    : Prog IProfileDbEntry :=
  let checkName := format namePattern newProfile in
  let name :=
    match checkName with
    | Some n => if bool_decide ((oldProfile ≫= d_name) = Some n) then None else Some n
    | None => None
    end in
  match p_avatarUrl newProfile with
  | None =>
      Ret {| d_name := name; d_avatarUrl := None; d_avatarMxc := None;
             d_avatarHash := None |}
  | Some url =>
      buffer <- call (Util_DownloadFile url) ;;
      let h := hash buffer in
      if bool_decide ((oldProfile ≫= d_avatarHash) = Some h) then
        Ret {| d_name := name; d_avatarUrl := None; d_avatarMxc := None;
               d_avatarHash := None |}
      else
        mxcUrl <- uploadFn buffer None None ;;
        Ret {| d_name := name; d_avatarUrl := Some url; d_avatarMxc := Some mxcUrl;
               d_avatarHash := Some h |}
  end.

(** A stand-in digest: the bytes in hexadecimal-free form, their codes. *)
Definition demo_hash (b : Buffer) : string :=
  "sha:" +:+ String.concat "," (map (fun x => pretty (Z.of_N (Byte.to_N x))) b).

Definition not_colon (c : ascii) : bool := negb (Ascii.eqb c ":"%char).

(** The localpart of an id in the bridge's namespace, without the prefix. *)
Definition strip_prefix (prefix s : string) : option string :=
  if String.prefix prefix s
  then Some (fst (span not_colon
                    (String.substring (String.length prefix)
                       (String.length s - String.length prefix) s)))
  else None.

Definition demo_bridge : PuppetBridge :=
  {| Util_str2mxid := fun s => s;
     Util_mxid2str := fun s => s;
     Util_HashBuffer := demo_hash;
     Util_GetMimeType := fun _ => "application/octet-stream";
     Util_ProcessProfileUpdate :=
       ProcessProfileUpdate_spec (fun _ p => p_name p) demo_hash;
     AS_isNamespacedUser := fun mxid => String.prefix "@_bridge_" mxid;
     AS_getUserIdForSuffix := fun suffix => "@_bridge_" +:+ suffix;
     AS_getAliasLocalpartForSuffix := fun suffix => "_bridge_" +:+ suffix;
     AS_getSuffixForAlias := strip_prefix "#_bridge_";
     AS_getSuffixForUserId := strip_prefix "@_bridge_";
     namePatterns_room := ":name";
     namePatterns_user := ":name";
     namePatterns_userOverride := ":name";
     config_bridge_domain := "example.org";
     hooks_createRoom_set := false;
     hooks_createUser_set := false;
     groupSyncEnabled := false |}.

(** An answer of the right type for every call. *)
Definition blank (c : Call) : result c :=
  match c as c0 return result c0 with
  | next_turn | holder_released _ _ => tt
  | roomStore_getByRemote _ _ | roomStore_getByMxid _ => None
  | roomStore_getByPuppetId _ => []
  | roomStore_set _ | roomStore_delete _ | roomStore_setRoomOp _ _ => tt
  | roomStore_getRoomOp _ => None
  | userStore_get _ _ => None
  | userStore_set _ | userStore_delete _ _ | userStore_setRoomOverride _ => tt
  | userStore_getRoomOverride _ _ _ => None
  | userStore_getAllRoomOverrides _ _ => []
  | store_getFileMxc _ => None
  | store_setFileMxc _ _ _ => tt
  | puppetStore_getGhostsInRoom _ => []
  | puppetStore_leaveGhostFromRoom _ _ | puppetStore_emptyGhostsInRoom _ => tt
  | provisioner_get _ => None
  | provisioner_getToken _ => None
  | client_createRoom _ _ | client_getUserId _ => ""
  | client_sendStateEvent _ _ _ _ _ => ""
  | client_getRoomStateEvent _ _ _ _ => c_empty
  | client_deleteRoomAlias _ _ => tt
  | client_uploadContent _ _ _ _ => ""
  | client_setDisplayName _ _ | client_setAvatarUrl _ _ => tt
  | intent_ensureRegistered _ | intent_leaveRoom _ _ => tt
  | intent_getJoinedRooms _ => []
  | Util_DownloadFile _ => []
  | hooks_createRoom _ => None
  | hooks_createUser _ => None
  | groupSync_removeRoomFromGroup _ _ _ | groupSync_addRoomToGroup _ _ _ => tt
  end.

Definition user_id_of (c : MatrixClient) : string :=
  match c with
  | underlyingClient botIntent => "@_bridge_bot:example.org"
  | underlyingClient (IntentForUserId u) => u
  | NewMatrixClient t => "@" +:+ token t +:+ ":example.org"
  end.

(** A homeserver on which everything succeeds: the [n]-th call that creates
    a room gets room id [!room<n>:example.org]. *)
Definition friendly : Oracle := fun n c =>
  match c as c0 return JsError + result c0 with
  | client_createRoom _ _ => inr ("!room" +:+ pretty (Z.of_nat n) +:+ ":example.org")
  | client_getUserId c => inr (user_id_of c)
  | client_sendStateEvent _ _ _ _ _ => inr ("$event" +:+ pretty (Z.of_nat n))
  | client_uploadContent _ _ _ _ => inr ("mxc://example.org/" +:+ pretty (Z.of_nat n))
  | c' => inr (blank c')
  end.

(** A homeserver on which every call of the transport fails. *)
Definition hostile (code : string) : Oracle := fun n c =>
  match c as c0 return JsError + result c0 with
  | Util_DownloadFile _ => inr []
  | hooks_createRoom _ => inr None
  | hooks_createUser _ => inr None
  | groupSync_removeRoomFromGroup _ _ _ | groupSync_addRoomToGroup _ _ _ => inr tt
  | _ => inl (MatrixError code)
  end.

(** * Observations on a run *)

Definition is_upload (c : Call) : bool :=
  match c with client_uploadContent _ _ _ _ => true | _ => false end.

Definition is_createRoom (c : Call) : bool :=
  match c with client_createRoom _ _ => true | _ => false end.

Definition is_leaveRoom (c : Call) : bool :=
  match c with intent_leaveRoom _ _ => true | _ => false end.


(** Writes through the transport: room creation, state events, membership,
    profile fields, aliases, content, group membership.  (Registering a
    ghost account, [ensureRegistered], is not a write to any state.) *)
Definition is_transport_write (c : Call) : bool :=
  match c with
  | client_createRoom _ _ | client_sendStateEvent _ _ _ _ _
  | client_setDisplayName _ _ | client_setAvatarUrl _ _
  | client_deleteRoomAlias _ _ | client_uploadContent _ _ _ _
  | intent_leaveRoom _ _
  | groupSync_removeRoomFromGroup _ _ _ | groupSync_addRoomToGroup _ _ _ => true
  | _ => false
  end.

Definition is_persistence_write (c : Call) : bool :=
  match c with
  | roomStore_set _ | roomStore_delete _ | roomStore_setRoomOp _ _
  | userStore_set _ | userStore_delete _ _ | userStore_setRoomOverride _
  | store_setFileMxc _ _ _
  | puppetStore_leaveGhostFromRoom _ _ | puppetStore_emptyGhostsInRoom _ => true
  | _ => false
  end.

Definition is_write (c : Call) : bool := is_transport_write c || is_persistence_write c.

Definition writes (t : list Call) : list Call := List.filter is_write t.

(** The persisted tables are the same in two worlds. *)
Definition same_stores (w w' : World) : Prop :=
  roomStore w' = roomStore w /\ roomOps w' = roomOps w /\
  userStore w' = userStore w /\ roomOverrides w' = roomOverrides w /\
  fileStore w' = fileStore w /\ ghostsInRoom w' = ghostsInRoom w.

(** Representation invariant of the room table: a row sits under its own
    room id. *)
Definition rooms_keyed (w : World) : Prop :=
  map_Forall (fun mxid e => e_mxid e = mxid) (roomStore w).

(** The pattern the spec names for a suffix: decimal digits, an
    underscore, the rest. *)
Definition all_digits (s : string) : bool := forallb is_digit (list_ascii_of_string s).

Definition digits_underscore_rest (suffix : string) : Prop :=
  exists digits rest,
    digits <> "" /\ all_digits digits = true /\ suffix = digits +:+ "_" +:+ rest.

(** ** The scenario of the spec: puppet 3, room "chan1", no prior mapping *)

Definition chan1 : IRemoteRoom := remote_room 3 "chan1".

Definition two_calls : World * Sched.Pool (string * bool) :=
  (empty_world,
   Sched.pool [getMxid demo_bridge chan1 None None true;
               getMxid demo_bridge chan1 None None true] []).

(** Both calls are made in the same turn of the event loop and then advance
    in step. *)
Definition in_step : list Sched.Choice :=
  concat (repeat [Sched.run_call 0%nat; Sched.run_call 1%nat] 7).

(** The second call is made once the first has settled. *)
Definition back_to_back : list Sched.Choice :=
  (repeat (Sched.run_call 0%nat) 7 ++ repeat (Sched.run_call 1%nat) 4)%list.

(** The second call is made while the first holds the key. *)
Definition second_call_waits : list Sched.Choice :=
  ([Sched.run_call 0%nat; Sched.run_call 0%nat; Sched.run_call 1%nat; Sched.run_call 1%nat]
   ++ repeat (Sched.run_call 0%nat) 5 ++ repeat (Sched.run_call 1%nat) 4)%list.

Definition one_byte : Buffer := [Byte.x2a].

(** A world whose file cache knows the digest of [one_byte]. *)
Definition cached_world : World :=
  set_files {[ demo_hash one_byte := ("mxc://example.org/cached", "file") ]} empty_world.

(** * PuppetBridge: the calls that delegate to the synchronisers

    [updateRoom], [bridgeRoom], [unbridgeRoomByMxid], [unbridgeRoom],
    [getMxidForUser] and [getMxidForRoom] of [src/puppetbridge.ts].
    [Appservice.getAliasForSuffix] is one more helper of matrix-bot-sdk;
    [getMxidForRoom] takes it as an argument. *)
Section Facade.

Variable this : PuppetBridge.

Definition updateRoom (room : IRemoteRoom) : Prog unit :=
  perform (log verbose "Got request to update a room") ;;
  getMxid this room None None false ;;
  Ret tt.

Definition bridgeRoom (roomData : IRemoteRoom) : Prog unit :=
  if negb (hooks_createRoom_set this) then Ret tt
  else
    (* check if this is a valid room at all *)
    room <- call (hooks_createRoom roomData) ;;
    match room with
    | None => Ret tt
    | Some room =>
        if negb (Z.eqb (r_puppetId roomData) (r_puppetId room))
           || negb (String.eqb (r_roomId roomData) (r_roomId room))
           || r_isDirect room
        then Ret tt
        else
          perform (log info ("Got request to bridge room puppetId="
                             +:+ pretty (r_puppetId room) +:+ " roomId="
                             +:+ r_roomId room)) ;;
          (* check if the corresponding puppet exists *)
          puppet <- call (provisioner_get (r_puppetId room)) ;;
          match puppet with
          | None => Ret tt
          | Some puppet =>
              let invites := [pp_puppetMxid puppet] in
              getMxid this room None (Some invites) true ;;
              Ret tt
          end
    end.

Definition unbridgeRoom (room : option IRemoteRoom) : Prog unit :=
  match room with
  | None => Ret tt
  | Some room =>
      perform (log info ("Got request to unbridge room puppetId="
                         +:+ pretty (r_puppetId room) +:+ " roomId=" +:+ r_roomId room)) ;;
      RoomSyncroniser_delete this room true
  end.

Definition unbridgeRoomByMxid (mxid : string) : Prog unit :=
  room <- getPartsFromMxid this mxid ;;
  unbridgeRoom room.



End Facade.

(** ** What the development asks of the reconciler

    [Util.ProcessProfileUpdate] is a parameter.  Where a property of a
    caller depends on it, this is what is assumed of one invocation: it
    returns the change set [d], leaves nothing floating, and touches
    neither the room and user tables nor the two entity locks.  It may
    download, upload and use the file cache, and awaits nothing else. *)
Definition is_media (c : Call) : bool :=
  match c with
  | Util_DownloadFile _ | client_uploadContent _ _ _ _
  | store_getFileMxc _ | store_setFileMxc _ _ _
  | next_turn | holder_released mxcLookupLock _ => true
  | _ => false
  end.

Definition reconciles (this : PuppetBridge) (O : Oracle)
    (oldProfile : option IProfileDbEntry) (newProfile : IRemoteProfile)
    (namePattern : string) (d : IProfileDbEntry) : Prop :=
  forall uploadFn w,
    exists w2,
      exec this O
        (Util_ProcessProfileUpdate this oldProfile newProfile namePattern uploadFn) w =
        ran w2 (inr d) (fun w' => w') /\
      held_mxid w2 = held_mxid w /\
      held_client w2 = held_client w /\
      roomStore w2 = roomStore w /\
      roomOps w2 = roomOps w /\
      userStore w2 = userStore w /\
      roomOverrides w2 = roomOverrides w /\
      ghostsInRoom w2 = ghostsInRoom w /\
      puppets w2 = puppets w /\
      puppetTokens w2 = puppetTokens w /\
      mxidTokens w2 = mxidTokens w /\
      exists t, trace w2 = (trace w ++ t)%list /\ forallb is_media t = true.

(** ** Symbolic execution, one step at a time *)

Ltac run_prog :=
  cbn [bind try_catch for_of call perform floating when in_try uploadContent_catch
       Lock_wait Lock_set Lock_release getMxid_catch getClient_catch
       truthy fmap option_fmap option_map option_bind mbind
       negb andb orb isSome from_option id fst snd app
       l_room l_mxid l_doUpdate l_created l_removeGroup l_addGroup].
Ltac run_exec := cbn [exec call perform floating].
Ltac run_call := cbn [handle act file_key].
Ltac run_world :=
  cbn [traced ticked logged rejected set_holders set_rooms set_users set_files
       set_ghosts holders at_return outcome detached finish settle_floating
       trace logs tick unhandled roomStore roomOps userStore roomOverrides
       fileStore ghostsInRoom puppets puppetTokens mxidTokens
       held_mxid held_client held_mxc
       e_mxid e_roomId e_puppetId e_profile e_topic e_groupId
       s_puppetId s_userId s_profile o_puppetId o_userId o_roomId o_profile].
Ltac run := repeat (progress (run_prog; run_exec; run_call; run_world)).

(** The same on the world of a hypothesis. *)
Ltac run_world_in H :=
  cbn [traced ticked logged rejected set_holders set_rooms set_users set_files
       set_ghosts holders at_return outcome detached finish settle_floating
       trace logs tick unhandled roomStore roomOps userStore roomOverrides
       fileStore ghostsInRoom puppets puppetTokens mxidTokens
       held_mxid held_client held_mxc] in H.

(** ** More concrete inputs *)

(** A homeserver on which every download yields [one_byte] and every upload
    the reference [mxcUrl]. *)
Definition uploads_as (mxcUrl : string) : Oracle := fun n c =>
  match c as c0 return JsError + result c0 with
  | client_uploadContent _ _ _ _ => inr mxcUrl
  | Util_DownloadFile _ => inr one_byte
  | client_getUserId c => inr (user_id_of c)
  | c' => inr (blank c')
  end.

(** A homeserver that rejects every upload and every download. *)
Definition no_media (err : JsError) : Oracle := fun n c =>
  match c as c0 return JsError + result c0 with
  | client_uploadContent _ _ _ _ => inl err
  | Util_DownloadFile _ => inl err
  | c' => inr (blank c')
  end.

(** ** Entries the synchronisers store *)

(** The row [getMxid] stores for a room it created. *)
Definition created_entry (data : IRemoteRoom) (mxid : string) (d : IProfileDbEntry)
    : IRoomStoreEntry :=
  {| e_mxid := mxid; e_roomId := r_roomId data; e_puppetId := r_puppetId data;
     e_profile := assign_profile no_profile d;
     e_topic := if truthy (r_topic data) then r_topic data else None;
     e_groupId := if truthy (r_groupId data) then r_groupId data else None |}.

(** The row of a mapped room after a change of its profile only. *)
Definition renamed_entry (room : IRoomStoreEntry) (d : IProfileDbEntry) : IRoomStoreEntry :=
  {| e_mxid := e_mxid room; e_roomId := e_roomId room; e_puppetId := e_puppetId room;
     e_profile := assign_profile (e_profile room) d;
     e_topic := e_topic room; e_groupId := e_groupId room |}.


(** ** Assertions on runs

    A small program logic over [exec] for the code that loops and for
    properties that hold whatever the homeserver answers. *)
Section Assertions.

Variable this : PuppetBridge.
Variable O : Oracle.

(** [p], started in a world where [P] holds, settles with an outcome and in
    a world related by [Q], and leaves no promise floating. *)
Definition triple {A : Type} (P : World -> Prop) (p : Prog A)
    (Q : JsError + A -> World -> Prop) : Prop :=
  forall w, P w ->
    let r := exec this O p w in
    Q (outcome r) (at_return r) /\ forall w', detached r w' = w'.

(** [p] keeps [I], whether it returns or throws. *)
Definition keeps {A : Type} (I : World -> Prop) (p : Prog A) : Prop :=
  triple I p (fun _ w => I w).

(** [p] keeps [I] and returns. *)
Definition returns_keeping {A : Type} (I : World -> Prop) (p : Prog A) : Prop :=
  triple I p (fun o w => (exists a, o = inr a) /\ I w).

End Assertions.


Definition same_users (w w' : World) : Prop :=
  userStore w' = userStore w /\ roomOverrides w' = roomOverrides w.

(** The three tables that hold something per room. *)
Definition room_tables (m : gmap string IRoomStoreEntry) (o : gmap string string)
    (g : gmap string (list string)) (w : World) : Prop :=
  roomStore w = m /\ roomOps w = o /\ ghostsInRoom w = g.

(** A table without what is stored for the rooms of [entries]. *)
Definition without {V : Type} (entries : list IRoomStoreEntry) (m : gmap string V)
    : gmap string V :=
  foldl (fun m e => delete (e_mxid e) m) m entries.

(** Calls that create a room or send a state event into one. *)
Definition is_room_event (c : Call) : bool :=
  match c with
  | client_createRoom _ _ | client_sendStateEvent _ _ _ _ _ => true
  | _ => false
  end.

(** What the hook's answer must be for [bridgeRoom] to go on:
    [room && roomData.puppetId === room.puppetId && roomData.roomId ===
    room.roomId && !room.isDirect], and the puppet exists. *)
Definition bridgeable (w : World) (roomData : IRemoteRoom) (answer : option IRemoteRoom)
    : Prop :=
  match answer with
  | None => False
  | Some room =>
      r_puppetId room = r_puppetId roomData /\ r_roomId room = r_roomId roomData /\
      r_isDirect room = false /\ is_Some (puppets w !! r_puppetId room)
  end.


(** ** Worlds and homeservers for the examples *)

(** A homeserver on which everything succeeds and every created room gets
    the id [mxid]; the [createRoom] hook, where set, answers [hook]. *)
Definition homeserver (mxid : string) (hook : option IRemoteRoom) : Oracle := fun n c =>
  match c as c0 return JsError + result c0 with
  | client_createRoom _ _ => inr mxid
  | client_getUserId c => inr (user_id_of c)
  | hooks_createRoom _ => inr hook
  | c' => inr (blank c')
  end.

(** A homeserver that hands out the power levels [users] of any room, and
    answers a state event with [sent]. *)
Definition power_levels (users : gmap string Z) (sent : JsError + string) : Oracle :=
  fun n c =>
  match c as c0 return JsError + result c0 with
  | client_getRoomStateEvent _ _ _ _ => inr (c_power_levels (Some users) "")
  | client_sendStateEvent _ _ _ _ _ => sent
  | client_getUserId c => inr (user_id_of c)
  | c' => inr (blank c')
  end.


(** [demo_bridge] with a [createRoom] hook. *)
Definition hooked_bridge : PuppetBridge :=
  {| Util_str2mxid := Util_str2mxid demo_bridge;
     Util_mxid2str := Util_mxid2str demo_bridge;
     Util_HashBuffer := Util_HashBuffer demo_bridge;
     Util_GetMimeType := Util_GetMimeType demo_bridge;
     Util_ProcessProfileUpdate := Util_ProcessProfileUpdate demo_bridge;
     AS_isNamespacedUser := AS_isNamespacedUser demo_bridge;
     AS_getUserIdForSuffix := AS_getUserIdForSuffix demo_bridge;
     AS_getAliasLocalpartForSuffix := AS_getAliasLocalpartForSuffix demo_bridge;
     AS_getSuffixForAlias := AS_getSuffixForAlias demo_bridge;
     AS_getSuffixForUserId := AS_getSuffixForUserId demo_bridge;
     namePatterns_room := namePatterns_room demo_bridge;
     namePatterns_user := namePatterns_user demo_bridge;
     namePatterns_userOverride := namePatterns_userOverride demo_bridge;
     config_bridge_domain := config_bridge_domain demo_bridge;
     hooks_createRoom_set := true;
     hooks_createUser_set := false;
     groupSyncEnabled := false |}.

(** A change set with at most a name. *)
Definition name_change (name : option string) : IProfileDbEntry :=
  {| d_name := name; d_avatarUrl := None; d_avatarMxc := None; d_avatarHash := None |}.

Definition chan1_mxid : string := "!chan1:example.org".

Definition chan1_entry : IRoomStoreEntry := created_entry chan1 chan1_mxid no_profile.

Definition ghost_a : string := "@_bridge_3_a:example.org".
Definition ghost_b : string := "@_bridge_3_b:example.org".

(** A world in which [chan1] is mapped, [ghost_a] is its operator, and
    [ghost_a] and [ghost_b] are in the room. *)
Definition mapped_world : World :=
  set_ghosts {[ chan1_mxid := [ghost_a; ghost_b] ]}
    (set_rooms {[ chan1_mxid := chan1_entry ]} {[ chan1_mxid := ghost_a ]} empty_world).

(** [chan1] with the name "General". *)
Definition chan1_named : IRemoteRoom :=
  {| r_puppetId := 3; r_roomId := "chan1"; r_isDirect := false; r_topic := None;
     r_groupId := None; r_name := Some "General"; r_avatarUrl := None |}.

Definition alice : IRemoteUser :=
  {| u_puppetId := 3; u_userId := "alice"; u_name := None; u_avatarUrl := None;
     u_roomOverrides := None |}.


Definition puppet3_token : ITokenResponse :=
  {| hsUrl := "https://example.org"; token := "secret" |}.

(** A world in which puppet 3 is the remote user "alice" and has a token. *)
Definition puppet_world : World :=
  {| held_mxid := ∅; held_client := ∅; held_mxc := ∅;
     roomStore := ∅; roomOps := ∅; userStore := ∅; roomOverrides := ∅;
     fileStore := ∅; ghostsInRoom := ∅;
     puppets := {[ 3 := {| pp_userId := Some "alice";
                           pp_puppetMxid := "@alice:example.org" |} ]};
     puppetTokens := {[ 3 := puppet3_token ]}; mxidTokens := ∅;
     tick := 0; trace := []; logs := []; unhandled := [] |}.



(** * Part II: properties *)

(** ** How [exec] runs composed programs *)

Section ExecLaws.

Variable this : PuppetBridge.
Variable O : Oracle.

Lemma exec_bind {A B : Type} (p : Prog A) (f : A -> Prog B) (w : World) :
  exec this O (bind p f) w =
  let r := exec this O p w in
  match outcome r with
  | inl e => ran (at_return r) (inl e) (detached r)
  | inr a =>
      let r2 := exec this O (f a) (at_return r) in
      ran (at_return r2) (outcome r2) (fun w' => detached r2 (detached r w'))
  end.
Proof.
  revert B f w.
  induction p as [A a|A e|A a k IH|A c k IH|A bg _ k IH]; intros B f w; cbn.
  - destruct (exec this O (f a) w); reflexivity.
  - reflexivity.
  - destruct (act a w) as [w1 r]. apply IH.
  - destruct (handle this O c w) as [w1 r]. apply IH.
  - rewrite IH. cbn. destruct (outcome (exec this O k w)); reflexivity.
Qed.

Lemma exec_try_catch {A : Type} (p : Prog A) (h : JsError -> Prog A) (w : World) :
  exec this O (try_catch p h) w =
  let r := exec this O p w in
  match outcome r with
  | inr a => ran (at_return r) (inr a) (detached r)
  | inl e =>
      let r2 := exec this O (h e) (at_return r) in
      ran (at_return r2) (outcome r2) (fun w' => detached r2 (detached r w'))
  end.
Proof.
  revert h w.
  induction p as [A a|A e|A a k IH|A c k IH|A bg _ k IH]; intros h w; cbn.
  - reflexivity.
  - destruct (exec this O (h e) w); reflexivity.
  - destruct (act a w) as [w1 r]. apply IH.
  - destruct (handle this O c w) as [w1 r]. apply IH.
  - rewrite IH. cbn. destruct (outcome (exec this O k w)); reflexivity.
Qed.

End ExecLaws.

(** ** uploadContent *)

Section UploadContent.

Variable this : PuppetBridge.
Variable O : Oracle.

(** What a cache hit on the digest does, in full: the world it returns in. *)
Lemma uploadContent_digest_hit (w : World) (client : option MatrixClient)
    (buffer : Buffer) (mimetype filename : option string) (mxcUrl fn : string) :
  fileStore w !! Util_HashBuffer this buffer = Some (mxcUrl, fn) ->
  mxcUrl <> "" ->
  let hash := Util_HashBuffer this buffer in
  let r := exec this O (uploadContent this client (inr buffer) mimetype filename) w in
  outcome r = inr mxcUrl /\
  finish r = at_return r /\
  trace (at_return r) =
    (trace w ++ [if bool_decide (hash ∈ held_mxc w)
                 then holder_released mxcLookupLock hash else next_turn;
                 store_getFileMxc (inl hash)])%list /\
  tick (at_return r) = tick w /\
  same_stores w (at_return r) /\
  hash ∈ held_mxc (at_return r).
Proof.
  intros Hhit Hne. cbn.
  destruct (bool_decide (Util_HashBuffer this buffer ∈ held_mxc w)) eqn:Hheld; cbn;
    rewrite Hhit; cbn;
    (destruct (String.eqb_spec mxcUrl ""); [done|]); cbn;
    rewrite <- app_assoc; repeat split; try done; set_solver.
Qed.

(** C2.  A call of [uploadContent] with a byte buffer whose digest already
    maps to a stored (non-empty) reference returns that reference; it
    issues no upload, in fact no call to the transport at all (the
    oracle's clock does not move), and leaves the stores as they were. *)
Theorem uploadContent_cached_digest_no_upload (w : World) (client : option MatrixClient)
    (buffer : Buffer) (mimetype filename : option string) (mxcUrl fn : string) :
  fileStore w !! Util_HashBuffer this buffer = Some (mxcUrl, fn) ->
  mxcUrl <> "" ->
  let r := exec this O (uploadContent this client (inr buffer) mimetype filename) w in
  outcome r = inr mxcUrl /\
  List.filter is_upload (trace (finish r)) = List.filter is_upload (trace w) /\
  tick (finish r) = tick w /\
  same_stores w (finish r).
Proof.
  intros Hhit Hne r.
  destruct (uploadContent_digest_hit w client buffer mimetype filename mxcUrl fn Hhit Hne)
    as (Hout & Hfin & Htr & Htick & Hst & _).
  fold r in Hout, Hfin, Htr, Htick, Hst.
  rewrite Hfin, Htr. repeat split; try done; try apply Hst.
  rewrite List.filter_app. cbn. destruct (bool_decide _); cbn; apply app_nil_r.
Qed.

End UploadContent.

Lemma uploadContent_cached_digest_no_upload_witness :
  let r := exec demo_bridge (hostile "M_UNKNOWN")
             (uploadContent demo_bridge None (inr one_byte) None None) cached_world in
  outcome r = inr "mxc://example.org/cached" /\
  List.filter is_upload (trace (finish r)) = List.filter is_upload (trace cached_world) /\
  tick (finish r) = tick cached_world /\
  same_stores cached_world (finish r).
Proof.
  apply (uploadContent_cached_digest_no_upload demo_bridge (hostile "M_UNKNOWN")
           cached_world None one_byte None None "mxc://example.org/cached" "file").
  - vm_compute. reflexivity.
  - discriminate.
Defined.

(** C3.  The claim fails on [uploadContent]: on a cache hit the function
    returns from inside the [try] block without releasing.  Here the
    digest of the buffer is cached; the call returns the cached reference
    and the digest's key, free before the call, still has its holder
    registered once the call has completed.  The next call for the same
    bytes finds the key held and gets on only when the lock times out. *)
Theorem uploadContent_cache_hit_leaves_key_held :
  let call_once := exec demo_bridge friendly
                     (uploadContent demo_bridge None (inr one_byte) None None) in
  let r := call_once cached_world in
  let r2 := call_once (finish r) in
  outcome r = inr "mxc://example.org/cached" /\
  elements (held_mxc cached_world) = [] /\
  elements (held_mxc (finish r)) = [demo_hash one_byte] /\
  logs (finish r2) = [(warn, "Lock timed out")].
Proof. vm_compute. repeat split. Qed.

Section GetMxidLock.

Variable this : PuppetBridge.
Variable O : Oracle.

(** The sibling path: the early return of [getMxid] for a room that has
    no mapping and is not to be created does release its key. *)
Lemma getMxid_not_created_releases (w : World) (data : IRemoteRoom)
    (client : option MatrixClient) (invites : option (list string)) :
  getByRemote (r_puppetId data) (r_roomId data) (roomStore w) = None ->
  let r := exec this O (getMxid this data client invites false) w in
  outcome r = inr ("", false) /\
  (lockKey (r_puppetId data) (r_roomId data) ∉ held_mxid (finish r)) /\
  same_stores w (finish r).
Proof.
  intros Hnone. cbn.
  destruct (bool_decide (lockKey (r_puppetId data) (r_roomId data) ∈ held_mxid w)); cbn;
    rewrite Hnone; cbn; repeat split; try done; set_solver.
Qed.

End GetMxidLock.

(** ** Two calls of [getMxid] in flight *)

(** C1.  The claim fails when both calls are made in the same turn of the
    event loop: each finds the key free when it calls [wait], each resumes
    and calls [set], each looks the room up before the other has stored
    it.  Two creation calls reach the transport, the callers get two
    different room ids, two mappings are persisted for (3, "chan1"). *)
Theorem getMxid_pair_in_step_creates_twice :
  let s := Sched.run demo_bridge friendly in_step two_calls in
  map Sched.settled (Sched.calls (snd s)) =
    [Some (inr ("!room0:example.org", true)); Some (inr ("!room1:example.org", true))] /\
  length (List.filter is_createRoom (trace (fst s))) = 2%nat /\
  map e_mxid (getByPuppetId 3 (roomStore (fst s))) =
    ["!room1:example.org"; "!room0:example.org"] /\
  map e_roomId (getByPuppetId 3 (roomStore (fst s))) = ["chan1"; "chan1"].
Proof. vm_compute. repeat split. Qed.

(** When the second call is made after the first has settled, or while the
    first holds the key, one room is created and both get its id. *)
Lemma getMxid_pair_back_to_back_creates_once :
  let s := Sched.run demo_bridge friendly back_to_back two_calls in
  map Sched.settled (Sched.calls (snd s)) =
    [Some (inr ("!room0:example.org", true)); Some (inr ("!room0:example.org", false))] /\
  length (List.filter is_createRoom (trace (fst s))) = 1%nat /\
  map e_mxid (getByPuppetId 3 (roomStore (fst s))) = ["!room0:example.org"].
Proof. vm_compute. repeat split. Qed.

Lemma getMxid_pair_second_waits_creates_once :
  let s := Sched.run demo_bridge friendly second_call_waits two_calls in
  map Sched.settled (Sched.calls (snd s)) =
    [Some (inr ("!room0:example.org", true)); Some (inr ("!room0:example.org", false))] /\
  length (List.filter is_createRoom (trace (fst s))) = 1%nat /\
  map e_mxid (getByPuppetId 3 (roomStore (fst s))) = ["!room0:example.org"].
Proof. vm_compute. repeat split. Qed.

(** ** getPartsFromMxid *)

Lemma span_app (f : ascii -> bool) (s a b : string) :
  span f s = (a, b) ->
  s = a +:+ b /\ forallb f (list_ascii_of_string a) = true.
Proof.
  revert a b. induction s as [|c s IH]; intros a b; cbn.
  - intros [= <- <-]. done.
  - destruct (f c) eqn:Hc.
    + destruct (span f s) as [a' b'] eqn:Hs. intros [= <- <-].
      destruct (IH a' b' eq_refl) as [-> Hall]. cbn. rewrite Hc. done.
    + intros [= <- <-]. done.
Qed.

Lemma match_puppet_suffix_pattern (suffix m1 m2 : string) :
  match_puppet_suffix suffix = Some (m1, m2) -> digits_underscore_rest suffix.
Proof.
  unfold match_puppet_suffix.
  destruct (span is_digit suffix) as [digits rest] eqn:Hspan.
  destruct (span_app _ _ _ _ Hspan) as [-> Hall].
  destruct digits as [|d digits]; [done|].
  destruct rest as [|c rest]; [done|].
  destruct (Ascii.eqb_spec c "_"%char) as [->|Hc].
  - intros _. exists (String d digits), rest. done.
  - destruct c as [[] [] [] [] [] [] [] []]; done.
Qed.

Section GetPartsFromMxid.

Variable this : PuppetBridge.
Variable O : Oracle.

(** C9.  Room [getPartsFromMxid]: an id starting with "!" gives the stored
    (puppetId, roomId) when the room is mapped and null otherwise; an
    alias whose suffix in the bridge's namespace is "7_a2b3" gives puppet
    7 and the unescaped room id; a suffix that is not of the form
    decimal digits, underscore, rest gives null. *)
Theorem getPartsFromMxid_spec :
  (forall (w : World) (mxid : string),
     starts_with_bang mxid = true ->
     outcome (exec this O (getPartsFromMxid this mxid) w) =
       inr match roomStore w !! mxid with
           | Some room => Some (remote_room (e_puppetId room) (e_roomId room))
           | None => None
           end) /\
  (forall (w : World) (alias : string),
     starts_with_bang alias = false ->
     AS_getSuffixForAlias this alias = Some "7_a2b3" ->
     outcome (exec this O (getPartsFromMxid this alias) w) =
       inr (Some (remote_room 7 (Util_mxid2str this "a2b3")))) /\
  (forall (w : World) (alias suffix : string),
     starts_with_bang alias = false ->
     AS_getSuffixForAlias this alias = Some suffix ->
     ~ digits_underscore_rest suffix ->
     outcome (exec this O (getPartsFromMxid this alias) w) = inr None).
Proof.
  split; [|split].
  - intros w mxid Hbang. unfold getPartsFromMxid. rewrite Hbang. cbn.
    destruct (roomStore w !! mxid); reflexivity.
  - intros w alias Hbang Hsuffix. unfold getPartsFromMxid. rewrite Hbang, Hsuffix.
    reflexivity.
  - intros w alias suffix Hbang Hsuffix Hno. unfold getPartsFromMxid.
    rewrite Hbang, Hsuffix.
    destruct (String.eqb suffix ""); [reflexivity|].
    destruct (match_puppet_suffix suffix) as [[m1 m2]|] eqn:Hm; [|reflexivity].
    destruct Hno. eapply match_puppet_suffix_pattern, Hm.
Qed.

(** The ghost side parses a user id the same way. *)
Lemma UserSyncroniser_getPartsFromMxid_spec (mxid suffix : string) :
  AS_getSuffixForUserId this mxid = Some suffix ->
  ~ digits_underscore_rest suffix ->
  UserSyncroniser_getPartsFromMxid this mxid = None.
Proof.
  intros Hsuffix Hno. unfold UserSyncroniser_getPartsFromMxid. rewrite Hsuffix.
  destruct (String.eqb suffix ""); [reflexivity|].
  destruct (match_puppet_suffix suffix) as [[m1 m2]|] eqn:Hm; [|reflexivity].
  destruct Hno. eapply match_puppet_suffix_pattern, Hm.
Qed.

End GetPartsFromMxid.

Lemma not_pattern_example : ~ digits_underscore_rest "room_7".
Proof.
  intros (digits & rest & Hne & Hall & Heq).
  destruct digits as [|d digits]; [done|].
  injection Heq as <- _. discriminate Hall.
Defined.

Lemma getPartsFromMxid_spec_witness :
  outcome (exec demo_bridge friendly
             (getPartsFromMxid demo_bridge "!abc:example.org") empty_world) = inr None /\
  outcome (exec demo_bridge friendly
             (getPartsFromMxid demo_bridge "#_bridge_7_a2b3:example.org") empty_world) =
    inr (Some (remote_room 7 "a2b3")) /\
  outcome (exec demo_bridge friendly
             (getPartsFromMxid demo_bridge "#_bridge_room_7:example.org") empty_world) =
    inr None.
Proof.
  destruct (getPartsFromMxid_spec demo_bridge friendly) as (Hid & Halias & Hbad).
  split; [|split].
  - apply (Hid empty_world "!abc:example.org"). reflexivity.
  - apply (Halias empty_world "#_bridge_7_a2b3:example.org"); reflexivity.
  - apply (Hbad empty_world "#_bridge_room_7:example.org" "room_7").
    + reflexivity.
    + reflexivity.
    + exact not_pattern_example.
Defined.

(** * Part III: further properties of the code *)

(** ** Small facts used below *)

Lemma released_after_set (k : string) (s : gset string) :
  ({[k]} ∪ s) ∖ {[k]} = s ∖ {[k]}.
Proof. set_solver. Qed.

Lemma released_after_timeout (k : string) (s : gset string) :
  ({[k]} ∪ s ∖ {[k]}) ∖ {[k]} = s ∖ {[k]}.
Proof. set_solver. Qed.

Lemma filter_snoc {X : Type} (f : X -> bool) (l : list X) (x : X) :
  List.filter f (l ++ [x]) = (List.filter f l ++ (if f x then [x] else []))%list.
Proof. rewrite List.filter_app. reflexivity. Qed.

(** ** uploadContent: the paths that transfer *)

Section UploadMore.

Variable this : PuppetBridge.
Variable O : Oracle.



(** X2.  When the upload is rejected, [uploadContent] passes the error on,
    caches nothing, logs the failure and leaves the digest's key free. *)
Theorem uploadContent_upload_failure (w : World) (client : option MatrixClient)
    (buffer : Buffer) (mimetype filename : option string) (err : JsError) :
  let hash := Util_HashBuffer this buffer in
  fileStore w !! hash = None ->
  (forall c m f, O (tick w) (client_uploadContent c buffer m f) = inl err) ->
  let r := exec this O (uploadContent this client (inr buffer) mimetype filename) w in
  outcome r = inl err /\
  fileStore (finish r) = fileStore w /\
  held_mxc (finish r) = held_mxc w ∖ {[hash]} /\
  last (logs (finish r)) = Some (error, "Failed to upload media").
Proof.
  intros hash Hmiss Hup.
  unfold uploadContent, uploadContent_buffer. run. fold hash.
  destruct (bool_decide (hash ∈ held_mxc w)); run; rewrite Hmiss; run;
    match goal with
    | |- context [O ?n (client_uploadContent ?c ?b ?m ?f)] => rewrite (Hup c m f)
    end; run.
  - split_and!; [reflexivity|reflexivity| |].
    + apply released_after_timeout.
    + apply last_snoc.
  - split_and!; [reflexivity|reflexivity| |].
    + apply released_after_set.
    + apply last_snoc.
Qed.

(** A cache hit on the locator: no download, no upload. *)
Lemma uploadContent_locator_hit (w : World) (client : option MatrixClient)
    (locator : string) (mimetype filename : option string) (mxcUrl fn : string) :
  fileStore w !! locator = Some (mxcUrl, fn) ->
  mxcUrl <> "" ->
  let r := exec this O (uploadContent this client (inl locator) mimetype filename) w in
  outcome r = inr mxcUrl /\
  finish r = at_return r /\
  tick (at_return r) = tick w /\
  fileStore (at_return r) = fileStore w.
Proof.
  intros Hhit Hne.
  unfold uploadContent. run.
  destruct (bool_decide (locator ∈ held_mxc w)); run; rewrite Hhit; run;
    (destruct (String.eqb_spec mxcUrl ""); [done|]); run;
    split_and!; reflexivity.
Qed.

(** A locator that is not in the cache, with bytes that are not either. *)
Lemma uploadContent_locator_miss (w : World) (client : option MatrixClient)
    (locator : string) (buffer : Buffer) (mimetype filename : option string)
    (mxcUrl : string) :
  let hash := Util_HashBuffer this buffer in
  fileStore w !! locator = None ->
  fileStore w !! hash = None ->
  O (tick w) (Util_DownloadFile locator) = inr buffer ->
  (forall c m f, O (S (tick w)) (client_uploadContent c buffer m f) = inr mxcUrl) ->
  let r := exec this O (uploadContent this client (inl locator) mimetype filename) w in
  outcome r = inr mxcUrl /\
  finish r = at_return r /\
  (exists fn, fileStore (at_return r) =
                <[hash := (mxcUrl, fn)]> (<[locator := (mxcUrl, fn)]> (fileStore w))) /\
  held_mxc (at_return r) = held_mxc w ∖ {[locator]} ∖ {[hash]} /\
  length (List.filter is_upload (trace (at_return r))) =
    S (length (List.filter is_upload (trace w))).
Proof.
  intros hash Hl Hh Hdown Hup.
  unfold uploadContent. run.
  destruct (bool_decide (locator ∈ held_mxc w)); run; rewrite Hl; run; rewrite Hdown; run;
    unfold uploadContent_buffer; run; fold hash;
    match goal with |- context [bool_decide ?P] => destruct (bool_decide P) end; run;
    rewrite Hh; run;
    match goal with
    | |- context [O ?n (client_uploadContent ?c ?b ?m ?f)] => rewrite (Hup c m f)
    end; run;
    (split_and!; [reflexivity|reflexivity|eexists; reflexivity|set_solver|]);
    rewrite !filter_snoc; cbn [is_upload]; rewrite !length_app; cbn [length]; lia.
Qed.

(** X3.  Content fetched from a locator is cached under both fingerprints:
    after a successful call with a locator, a later call with the same
    locator and a later call with the downloaded bytes both return the
    same reference without any call to the transport (the oracle's clock
    stands still), and both keys are free again. *)
Theorem uploadContent_locator_caches_both (w : World)
    (client client' client'' : option MatrixClient)
    (locator : string) (buffer : Buffer)
    (mimetype filename mimetype' filename' mimetype'' filename'' : option string)
    (mxcUrl : string) :
  let hash := Util_HashBuffer this buffer in
  fileStore w !! locator = None ->
  fileStore w !! hash = None ->
  mxcUrl <> "" ->
  O (tick w) (Util_DownloadFile locator) = inr buffer ->
  (forall c m f, O (S (tick w)) (client_uploadContent c buffer m f) = inr mxcUrl) ->
  let r := exec this O (uploadContent this client (inl locator) mimetype filename) w in
  let by_locator :=
    exec this O (uploadContent this client' (inl locator) mimetype' filename') (finish r) in
  let by_bytes :=
    exec this O (uploadContent this client'' (inr buffer) mimetype'' filename'') (finish r) in
  outcome r = inr mxcUrl /\
  held_mxc (finish r) = held_mxc w ∖ {[locator]} ∖ {[hash]} /\
  outcome by_locator = inr mxcUrl /\ tick (finish by_locator) = tick (finish r) /\
  outcome by_bytes = inr mxcUrl /\ tick (finish by_bytes) = tick (finish r).
Proof.
  intros hash Hl Hh Hne Hdown Hup r by_locator by_bytes.
  destruct (uploadContent_locator_miss w client locator buffer mimetype filename mxcUrl
              Hl Hh Hdown Hup) as (Hout & Hfin & (fn & Hstore) & Hheld & _).
  fold hash r in Hout, Hfin, Hstore, Hheld.
  assert (Hbytes : fileStore (finish r) !! hash = Some (mxcUrl, fn)).
  { rewrite Hfin, Hstore. apply lookup_insert_eq. }
  assert (Hloc : fileStore (finish r) !! locator = Some (mxcUrl, fn)).
  { rewrite Hfin, Hstore. rewrite lookup_insert.
    destruct (decide (hash = locator)); [reflexivity|]. apply lookup_insert_eq. }
  destruct (uploadContent_locator_hit (finish r) client' locator mimetype' filename'
              mxcUrl fn Hloc Hne) as (Hout1 & Hfin1 & Htick1 & _).
  destruct (uploadContent_digest_hit this O (finish r) client'' buffer mimetype'' filename''
              mxcUrl fn Hbytes Hne) as (Hout2 & Hfin2 & _ & Htick2 & _).
  fold by_locator in Hout1, Hfin1, Htick1. fold by_bytes in Hout2, Hfin2, Htick2.
  rewrite Hfin1, Hfin2. rewrite Hfin at 1.
  split_and!; assumption.
Qed.

(** X4.  When the download of a locator is rejected, [uploadContent] passes
    the error on without any upload, caches nothing and leaves the
    locator's key free. *)
Theorem uploadContent_download_failure (w : World) (client : option MatrixClient)
    (locator : string) (mimetype filename : option string) (err : JsError) :
  fileStore w !! locator = None ->
  O (tick w) (Util_DownloadFile locator) = inl err ->
  let r := exec this O (uploadContent this client (inl locator) mimetype filename) w in
  outcome r = inl err /\
  List.filter is_upload (trace (finish r)) = List.filter is_upload (trace w) /\
  fileStore (finish r) = fileStore w /\
  held_mxc (finish r) = held_mxc w ∖ {[locator]}.
Proof.
  intros Hl Hdown.
  unfold uploadContent. run.
  destruct (bool_decide (locator ∈ held_mxc w)); run; rewrite Hl; run; rewrite Hdown; run.
  - split_and!; [reflexivity| |reflexivity|apply released_after_timeout].
    rewrite !filter_snoc. cbn [is_upload]. rewrite !app_nil_r. reflexivity.
  - split_and!; [reflexivity| |reflexivity|apply released_after_set].
    rewrite !filter_snoc. cbn [is_upload]. rewrite !app_nil_r. reflexivity.
Qed.

End UploadMore.


Lemma uploadContent_upload_failure_witness :
  let r := exec demo_bridge (no_media (MatrixError "M_TOO_LARGE"))
             (uploadContent demo_bridge None (inr one_byte) None None) empty_world in
  outcome r = inl (MatrixError "M_TOO_LARGE") /\
  fileStore (finish r) = fileStore empty_world /\
  held_mxc (finish r) = held_mxc empty_world ∖ {[demo_hash one_byte]} /\
  last (logs (finish r)) = Some (error, "Failed to upload media").
Proof.
  apply (uploadContent_upload_failure demo_bridge (no_media (MatrixError "M_TOO_LARGE"))
           empty_world None one_byte None None (MatrixError "M_TOO_LARGE")).
  - reflexivity.
  - intros c m f. reflexivity.
Defined.

Lemma uploadContent_locator_caches_both_witness :
  let O := uploads_as "mxc://example.org/new" in
  let r := exec demo_bridge O
             (uploadContent demo_bridge None (inl "https://host/cat.png") None None)
             empty_world in
  let by_locator :=
    exec demo_bridge O
      (uploadContent demo_bridge None (inl "https://host/cat.png") None None) (finish r) in
  let by_bytes :=
    exec demo_bridge O (uploadContent demo_bridge None (inr one_byte) None None) (finish r) in
  outcome r = inr "mxc://example.org/new" /\
  held_mxc (finish r) =
    held_mxc empty_world ∖ {["https://host/cat.png"]} ∖ {[demo_hash one_byte]} /\
  outcome by_locator = inr "mxc://example.org/new" /\
  tick (finish by_locator) = tick (finish r) /\
  outcome by_bytes = inr "mxc://example.org/new" /\
  tick (finish by_bytes) = tick (finish r).
Proof.
  apply (uploadContent_locator_caches_both demo_bridge (uploads_as "mxc://example.org/new")
           empty_world None None None "https://host/cat.png" one_byte
           None None None None None None "mxc://example.org/new").
  - reflexivity.
  - reflexivity.
  - discriminate.
  - reflexivity.
  - intros c m f. reflexivity.
Defined.

Lemma uploadContent_download_failure_witness :
  let r := exec demo_bridge (no_media (PlainError "ECONNREFUSED"))
             (uploadContent demo_bridge None (inl "https://host/cat.png") None None)
             empty_world in
  outcome r = inl (PlainError "ECONNREFUSED") /\
  List.filter is_upload (trace (finish r)) = List.filter is_upload (trace empty_world) /\
  fileStore (finish r) = fileStore empty_world /\
  held_mxc (finish r) = held_mxc empty_world ∖ {["https://host/cat.png"]}.
Proof.
  apply (uploadContent_download_failure demo_bridge (no_media (PlainError "ECONNREFUSED"))
           empty_world None "https://host/cat.png" None None (PlainError "ECONNREFUSED")).
  - reflexivity.
  - reflexivity.
Defined.

(** ** Strings, and the decimal numerals of template strings *)

Lemma string_app_assoc (a b c : string) : (a +:+ b) +:+ c = a +:+ (b +:+ c).
Proof.
  induction a as [|x a IH]; [reflexivity|].
  change (String x ((a +:+ b) +:+ c) = String x (a +:+ (b +:+ c))). f_equal. exact IH.
Qed.












(** ** uploadContent: the file name of a locator *)

Lemma filename_at_shape (after f : string) :
  filename_at after = Some f ->
  exists stem ext rest,
    after = stem +:+ "." +:+ ext +:+ rest /\ f = stem +:+ "." +:+ ext /\
    stem <> "" /\ ext <> "" /\
    forallb not_dot_slash (list_ascii_of_string stem) = true /\
    forallb is_alnum (list_ascii_of_string ext) = true /\
    (rest = "" \/ exists rest', rest = String "?" rest').
Proof.
  unfold filename_at.
  destruct (span not_dot_slash after) as [stem rest] eqn:Hstem.
  destruct (span_app _ _ _ _ Hstem) as [-> Hs].
  destruct stem as [|s0 stem]; [discriminate|].
  destruct rest as [|c rest]; [discriminate|].
  destruct (Ascii.eqb_spec c "."%char) as [->|Hc];
    [|destruct c as [[] [] [] [] [] [] [] []]; try discriminate; destruct Hc; reflexivity].
  destruct (span is_alnum rest) as [ext rest'] eqn:Hext.
  destruct (span_app _ _ _ _ Hext) as [-> He].
  destruct ext as [|e0 ext]; [discriminate|].
  destruct rest' as [|q rest'].
  - intros [= <-]. exists (String s0 stem), (String e0 ext), "".
    split_and!; try done. left. reflexivity.
  - destruct (Ascii.eqb_spec q "?"%char) as [->|Hq];
      [|destruct q as [[] [] [] [] [] [] [] []]; try discriminate; destruct Hq; reflexivity].
    intros [= <-]. exists (String s0 stem), (String e0 ext), (String "?" rest').
    split_and!; try done. right. eexists. reflexivity.
Qed.

(** X5.  A file name that [uploadContent] takes from a locator is a part of
    the locator that follows a slash and has the form stem, dot, extension:
    the stem is non-empty and has no dot and no slash, the extension is
    non-empty and alphanumeric, and the locator ends there or goes on with
    a question mark. *)
Theorem filename_of_url_shape (url f : string) :
  filename_of_url url = Some f ->
  exists before stem ext rest,
    url = before +:+ "/" +:+ f +:+ rest /\ f = stem +:+ "." +:+ ext /\
    stem <> "" /\ ext <> "" /\
    forallb not_dot_slash (list_ascii_of_string stem) = true /\
    forallb is_alnum (list_ascii_of_string ext) = true /\
    (rest = "" \/ exists rest', rest = String "?" rest').
Proof.
  induction url as [|c url IH]; [discriminate|].
  cbn [filename_of_url].
  destruct (Ascii.eqb_spec c "/"%char) as [->|Hc].
  - destruct (filename_at url) as [f'|] eqn:Hat.
    + intros [= <-].
      destruct (filename_at_shape _ _ Hat) as (stem & ext & rest & -> & -> & Hrest).
      exists "", stem, ext, rest. split; [|split; [reflexivity|exact Hrest]].
      cbn. f_equal. rewrite <- !string_app_assoc. reflexivity.
    + intros H. destruct (IH H) as (before & stem & ext & rest & -> & Hrest).
      exists (String "/" before), stem, ext, rest. split; [reflexivity|exact Hrest].
  - intros H. destruct (IH H) as (before & stem & ext & rest & -> & Hrest).
    exists (String c before), stem, ext, rest. split; [reflexivity|exact Hrest].
Qed.

(** ** Ids built for an entity parse back to the entity *)

Section RoundTrip.

Variable this : PuppetBridge.
Variable O : Oracle.
Variable AS_getAliasForSuffix : string -> string.



(** A negative puppet id does not survive the trip: the pattern wants a
    digit first. *)
Lemma negative_puppet_id_unparsed (p : positive) (escaped : string) :
  match_puppet_suffix (pretty (Z.neg p) +:+ "_" +:+ escaped) = None.
Proof. reflexivity. Qed.

End RoundTrip.

(** ** Rows of a table *)

Lemma elem_of_rows {K : Type} `{Countable K} {V : Type} (m : gmap K V) (v : V) :
  v ∈ rows m <-> exists k, m !! k = Some v.
Proof.
  unfold rows. rewrite list_elem_of_fmap. split.
  - intros ([k v'] & -> & Hin). exists k. apply elem_of_map_to_list in Hin. exact Hin.
  - intros (k & Hk). exists (k, v). split; [reflexivity|]. apply elem_of_map_to_list. exact Hk.
Qed.

Lemma head_filter_None {X : Type} (P : X -> bool) (l : list X) (x : X) :
  head (List.filter P l) = None -> x ∈ l -> P x = false.
Proof.
  intros Hhead Hin. destruct (P x) eqn:HP; [|reflexivity].
  assert (Hx : In x (List.filter P l)).
  { apply List.filter_In. split; [apply list_elem_of_In; exact Hin|exact HP]. }
  destruct (List.filter P l); [destruct Hx|discriminate].
Qed.

Lemma head_filter_only {X : Type} (P : X -> bool) (l : list X) (v : X) :
  v ∈ l -> P v = true -> (forall x, x ∈ l -> P x = true -> x = v) ->
  head (List.filter P l) = Some v.
Proof.
  intros Hin HP Honly.
  assert (Hv : In v (List.filter P l)).
  { apply List.filter_In. split; [apply list_elem_of_In; exact Hin|exact HP]. }
  destruct (List.filter P l) as [|x l'] eqn:E; [destruct Hv|].
  cbn. f_equal.
  assert (Hx : In x (List.filter P l)) by (rewrite E; left; reflexivity).
  apply List.filter_In in Hx as [Hx HPx]. apply Honly; [apply list_elem_of_In; exact Hx|exact HPx].
Qed.


(** A row stored for a remote room that had none is the one found. *)
Lemma getByRemote_insert (m : gmap string IRoomStoreEntry) (e : IRoomStoreEntry) :
  getByRemote (e_puppetId e) (e_roomId e) m = None ->
  getByRemote (e_puppetId e) (e_roomId e) (<[e_mxid e := e]> m) = Some e.
Proof.
  intros Hnone. unfold getByRemote in *.
  apply head_filter_only.
  - apply elem_of_rows. exists (e_mxid e). apply lookup_insert_eq.
  - rewrite Z.eqb_refl, String.eqb_refl. reflexivity.
  - intros x Hx HPx. apply elem_of_rows in Hx as (k & Hk).
    rewrite lookup_insert in Hk. destruct (decide (e_mxid e = k)); [congruence|].
    assert (Hold : x ∈ rows m) by (apply elem_of_rows; exists k; exact Hk).
    rewrite (head_filter_None _ _ _ Hnone Hold) in HPx. discriminate.
Qed.

Lemma getByRemote_inserted (m : gmap string IRoomStoreEntry) (e : IRoomStoreEntry)
    (puppetId : Z) (roomId mxid : string) :
  e_puppetId e = puppetId -> e_roomId e = roomId -> e_mxid e = mxid ->
  getByRemote puppetId roomId m = None ->
  getByRemote puppetId roomId (<[mxid := e]> m) = Some e.
Proof. intros <- <- <-. apply getByRemote_insert. Qed.

(** ** Stepping over a part of a program whose run is known *)

Section Laws.
Variable this : PuppetBridge.
Variable O : Oracle.

Lemma exec_bind_ret {A B : Type} (p : Prog A) (f : A -> Prog B) (w w2 : World) (a : A) :
  exec this O p w = ran w2 (inr a) (fun w' => w') ->
  exec this O (bind p f) w = exec this O (f a) w2.
Proof.
  intros Hp. rewrite exec_bind, Hp. cbn.
  destruct (exec this O (f a) w2). reflexivity.
Qed.


Lemma exec_try_bind_bind_ret {A B C : Type} (p : Prog A) (f : A -> Prog B)
    (g : B -> Prog C) (h : JsError -> Prog C) (w w2 : World) (a : A) :
  exec this O p w = ran w2 (inr a) (fun w' => w') ->
  exec this O (try_catch (bind (bind p f) g) h) w =
  exec this O (try_catch (bind (f a) g) h) w2.
Proof.
  intros Hp. rewrite !exec_try_catch, !exec_bind, Hp. cbn.
  destruct (exec this O (f a) w2) as [w3 [e|b] d]; cbn.
  - destruct (exec this O (h e) w3). reflexivity.
  - destruct (exec this O (g b) w3) as [w4 [e|c] d']; cbn; [|reflexivity].
    destruct (exec this O (h e) w4). reflexivity.
Qed.

End Laws.

(** ** getMxid: creating a room *)

Section GetMxidCreate.

Variable this : PuppetBridge.
Variable O : Oracle.


(** A lookup answers from the table, also after waiting for the key. *)
Lemma maybeGetMxid_run (w : World) (puppetId : Z) (roomId : string) :
  let r := exec this O (maybeGetMxid puppetId roomId) w in
  outcome r = inr (e_mxid <$> getByRemote puppetId roomId (roomStore w)) /\
  roomStore (finish r) = roomStore w.
Proof.
  unfold maybeGetMxid, maybeGet. run.
  destruct (bool_decide _); run; destruct (getByRemote _ _ _); split; reflexivity.
Qed.



(** X10.  [updateRoom] for a remote room without mapping does nothing: it
    returns without any call to the homeserver, writes nothing, and the
    room's key is free afterwards. *)
Theorem updateRoom_unmapped (w : World) (room : IRemoteRoom) :
  let key := lockKey (r_puppetId room) (r_roomId room) in
  getByRemote (r_puppetId room) (r_roomId room) (roomStore w) = None ->
  let r := exec this O (updateRoom this room) w in
  outcome r = inr tt /\
  tick (finish r) = tick w /\
  same_stores w (finish r) /\
  writes (trace (finish r)) = writes (trace w) /\
  held_mxid (finish r) = held_mxid w ∖ {[key]}.
Proof.
  intros key Hnone. unfold updateRoom, getMxid. fold key. run.
  destruct (bool_decide (key ∈ held_mxid w)); run; rewrite Hnone; run.
  - split_and!; [reflexivity|reflexivity|repeat split| |apply released_after_timeout].
    unfold writes. rewrite !filter_snoc. cbn. rewrite !app_nil_r. reflexivity.
  - split_and!; [reflexivity|reflexivity|repeat split| |apply released_after_set].
    unfold writes. rewrite !filter_snoc. cbn. rewrite !app_nil_r. reflexivity.
Qed.

(** X11.  After [insert] of a room id (one that starts with an exclamation
    mark) for a remote room that had no mapping, the remote room is found
    under that id, the id is parsed back to the remote room, and the key is
    free. *)
Theorem insert_then_lookup (w : World) (mxid : string) (roomData : IRemoteRoom) :
  getByRemote (r_puppetId roomData) (r_roomId roomData) (roomStore w) = None ->
  starts_with_bang mxid = true ->
  let r := exec this O (insert mxid roomData) w in
  outcome r = inr tt /\
  held_mxid (finish r) = held_mxid w ∖ {[lockKey (r_puppetId roomData) (r_roomId roomData)]} /\
  outcome (exec this O (maybeGetMxid (r_puppetId roomData) (r_roomId roomData))
             (finish r)) = inr (Some mxid) /\
  outcome (exec this O (getPartsFromMxid this mxid) (finish r)) =
    inr (Some (remote_room (r_puppetId roomData) (r_roomId roomData))).
Proof.
  intros Hnone Hbang r.
  assert (Hr : outcome r = inr tt /\
               held_mxid (finish r) =
                 held_mxid w ∖ {[lockKey (r_puppetId roomData) (r_roomId roomData)]} /\
               roomStore (finish r) =
                 <[mxid := {| e_mxid := mxid; e_roomId := r_roomId roomData;
                              e_puppetId := r_puppetId roomData; e_profile := no_profile;
                              e_topic := None; e_groupId := None |}]> (roomStore w)).
  { unfold r, insert. run.
    destruct (bool_decide _); run;
      (split_and!; [reflexivity| |reflexivity]).
    - apply released_after_timeout.
    - apply released_after_set. }
  destruct Hr as (Hout & Hheld & Hrooms).
  split_and!; try assumption.
  - destruct (maybeGetMxid_run (finish r) (r_puppetId roomData) (r_roomId roomData)) as [-> _].
    rewrite Hrooms.
    erewrite getByRemote_inserted; [reflexivity|reflexivity|reflexivity|reflexivity|exact Hnone].
  - unfold getPartsFromMxid. rewrite Hbang. run. rewrite Hrooms, lookup_insert_eq. reflexivity.
Qed.

End GetMxidCreate.

(** ** Rules for the assertions *)

Section Rules.
Variable this : PuppetBridge.
Variable O : Oracle.

Lemma triple_ret {A : Type} (P : World -> Prop) (a : A) (Q : JsError + A -> World -> Prop) :
  (forall w, P w -> Q (inr a) w) -> triple this O P (Ret a) Q.
Proof. intros H w Hw. split; [apply H, Hw|reflexivity]. Qed.

Lemma triple_throw {A : Type} (P : World -> Prop) (e : JsError)
    (Q : JsError + A -> World -> Prop) :
  (forall w, P w -> Q (inl e) w) -> triple this O P (Throw e) Q.
Proof. intros H w Hw. split; [apply H, Hw|reflexivity]. Qed.

Lemma triple_conseq {A : Type} (P P' : World -> Prop) (p : Prog A)
    (Q Q' : JsError + A -> World -> Prop) :
  triple this O P p Q -> (forall w, P' w -> P w) -> (forall o w, Q o w -> Q' o w) ->
  triple this O P' p Q'.
Proof.
  intros H HP HQ w Hw. destruct (H w (HP w Hw)) as [Hq Hd]. split; [apply HQ, Hq|exact Hd].
Qed.

Lemma triple_bind {A B : Type} (P : World -> Prop) (p : Prog A)
    (Q1 : JsError + A -> World -> Prop) (f : A -> Prog B)
    (Q : JsError + B -> World -> Prop) :
  triple this O P p Q1 ->
  (forall e w, Q1 (inl e) w -> Q (inl e) w) ->
  (forall a, triple this O (Q1 (inr a)) (f a) Q) ->
  triple this O P (bind p f) Q.
Proof.
  intros Hp Herr Hf w Hw. destruct (Hp w Hw) as [Hq Hd].
  cbv zeta. rewrite exec_bind. cbv zeta.
  destruct (outcome (exec this O p w)) as [e|a]; cbn.
  - split; [apply Herr, Hq|exact Hd].
  - destruct (Hf a _ Hq) as [Hq2 Hd2]. split; [exact Hq2|].
    intros w'. rewrite Hd. apply Hd2.
Qed.

Lemma triple_try_catch {A : Type} (P : World -> Prop) (p : Prog A)
    (Q1 : JsError + A -> World -> Prop) (h : JsError -> Prog A)
    (Q : JsError + A -> World -> Prop) :
  triple this O P p Q1 ->
  (forall a w, Q1 (inr a) w -> Q (inr a) w) ->
  (forall e, triple this O (Q1 (inl e)) (h e) Q) ->
  triple this O P (try_catch p h) Q.
Proof.
  intros Hp Hok Hh w Hw. destruct (Hp w Hw) as [Hq Hd].
  cbv zeta. rewrite exec_try_catch. cbv zeta.
  destruct (outcome (exec this O p w)) as [e|a]; cbn.
  - destruct (Hh e _ Hq) as [Hq2 Hd2]. split; [exact Hq2|].
    intros w'. rewrite Hd. apply Hd2.
  - split; [apply Hok, Hq|exact Hd].
Qed.

Lemma triple_call (P : World -> Prop) (c : Call)
    (Q : JsError + result c -> World -> Prop) :
  (forall w, P w -> Q (snd (handle this O c w)) (fst (handle this O c w))) ->
  triple this O P (call c) Q.
Proof.
  intros H w Hw. specialize (H w Hw). unfold call. cbn [exec].
  destruct (handle this O c w) as [w1 [e|v]]; split; try exact H; reflexivity.
Qed.

Lemma triple_perform (P : World -> Prop) (a : Act)
    (Q : JsError + act_result a -> World -> Prop) :
  (forall w, P w -> Q (inr (snd (act a w))) (fst (act a w))) ->
  triple this O P (perform a) Q.
Proof.
  intros H w Hw. specialize (H w Hw). unfold perform. cbn [exec].
  destruct (act a w) as [w1 v]; split; [exact H|reflexivity].
Qed.

(** A loop: [I done] holds when the elements [done] have been processed. *)
Lemma triple_for_of {X : Type} (I : list X -> World -> Prop) (E : JsError -> World -> Prop)
    (l : list X) (body : X -> Prog unit) :
  (forall done x rest, l = (done ++ x :: rest)%list ->
     triple this O (I done) (body x)
       (fun o w => match o with inr _ => I (done ++ [x])%list w | inl e => E e w end)) ->
  triple this O (I []) (for_of l body)
    (fun o w => match o with inr _ => I l w | inl e => E e w end).
Proof.
  assert (G : forall rest done, l = (done ++ rest)%list ->
    (forall done x rest, l = (done ++ x :: rest)%list ->
       triple this O (I done) (body x)
         (fun o w => match o with inr _ => I (done ++ [x])%list w | inl e => E e w end)) ->
    triple this O (I done) (for_of rest body)
      (fun o w => match o with inr _ => I l w | inl e => E e w end)).
  { induction rest as [|x rest IH]; intros done Hl Hbody.
    - rewrite app_nil_r in Hl. subst done. apply triple_ret. intros w Hw. exact Hw.
    - cbn [for_of]. eapply triple_bind.
      + apply (Hbody done x rest Hl).
      + intros e w He. exact He.
      + intros []. apply IH; [|exact Hbody]. rewrite <- app_assoc. exact Hl. }
  intros H. apply (G l []); [reflexivity|exact H].
Qed.

(** *** Invariants *)

Lemma keeps_ret {A : Type} (I : World -> Prop) (a : A) : keeps this O I (Ret a).
Proof. apply triple_ret. auto. Qed.

Lemma keeps_throw {A : Type} (I : World -> Prop) (e : JsError) :
  keeps this O I (Throw e : Prog A).
Proof. apply triple_throw. auto. Qed.

Lemma keeps_bind {A B : Type} (I : World -> Prop) (p : Prog A) (f : A -> Prog B) :
  keeps this O I p -> (forall a, keeps this O I (f a)) -> keeps this O I (bind p f).
Proof. intros Hp Hf. eapply triple_bind; [exact Hp|auto|exact Hf]. Qed.

Lemma keeps_try_catch {A : Type} (I : World -> Prop) (p : Prog A) (h : JsError -> Prog A) :
  keeps this O I p -> (forall e, keeps this O I (h e)) -> keeps this O I (try_catch p h).
Proof. intros Hp Hh. eapply triple_try_catch; [exact Hp|auto|exact Hh]. Qed.

Lemma keeps_for_of {X : Type} (I : World -> Prop) (l : list X) (body : X -> Prog unit) :
  (forall x, keeps this O I (body x)) -> keeps this O I (for_of l body).
Proof.
  intros H. induction l as [|x l IH]; [apply keeps_ret|].
  cbn [for_of]. apply keeps_bind; [apply H|intros _; exact IH].
Qed.

Lemma keeps_call (I : World -> Prop) (c : Call) :
  (forall w, I w -> I (fst (handle this O c w))) -> keeps this O I (call c).
Proof. intros H. apply triple_call. exact H. Qed.

Lemma keeps_perform (I : World -> Prop) (a : Act) :
  (forall w, I w -> I (fst (act a w))) -> keeps this O I (perform a).
Proof. intros H. apply triple_perform. exact H. Qed.

Lemma keeps_finish {A : Type} (I : World -> Prop) (p : Prog A) (w : World) :
  keeps this O I p -> I w -> I (finish (exec this O p w)).
Proof. intros H Hw. destruct (H w Hw) as [Hq Hd]. unfold finish. rewrite Hd. exact Hq. Qed.

(** *** Programs that return *)

Lemma returns_keeping_ret {A : Type} (I : World -> Prop) (a : A) :
  returns_keeping this O I (Ret a).
Proof. apply triple_ret. intros w Hw. split; [eexists; reflexivity|exact Hw]. Qed.

Lemma returns_keeping_bind {A B : Type} (I : World -> Prop) (p : Prog A) (f : A -> Prog B) :
  returns_keeping this O I p -> (forall a, returns_keeping this O I (f a)) ->
  returns_keeping this O I (bind p f).
Proof.
  intros Hp Hf. eapply triple_bind; [exact Hp| |].
  - intros e w [[a Ha] _]. discriminate.
  - intros a. eapply triple_conseq; [apply (Hf a)| |auto]. intros w [_ Hw]. exact Hw.
Qed.

Lemma returns_keeping_try_catch {A : Type} (I : World -> Prop) (p : Prog A)
    (h : JsError -> Prog A) :
  keeps this O I p -> (forall e, returns_keeping this O I (h e)) ->
  returns_keeping this O I (try_catch p h).
Proof.
  intros Hp Hh. eapply triple_try_catch; [exact Hp| |exact Hh].
  intros a w Hw. split; [eexists; reflexivity|exact Hw].
Qed.

Lemma returns_keeping_for_of {X : Type} (I : World -> Prop) (l : list X)
    (body : X -> Prog unit) :
  (forall x, returns_keeping this O I (body x)) -> returns_keeping this O I (for_of l body).
Proof.
  intros H. induction l as [|x l IH]; [apply returns_keeping_ret|].
  cbn [for_of]. apply returns_keeping_bind; [apply H|intros _; exact IH].
Qed.

Lemma returns_keeping_call (I : World -> Prop) (c : Call) :
  (forall w, I w -> (exists v, snd (handle this O c w) = inr v) /\ I (fst (handle this O c w))) ->
  returns_keeping this O I (call c).
Proof. intros H. apply triple_call. exact H. Qed.

Lemma returns_keeping_perform (I : World -> Prop) (a : Act) :
  (forall w, I w -> I (fst (act a w))) -> returns_keeping this O I (perform a).
Proof.
  intros H. apply triple_perform. intros w Hw. split; [eexists; reflexivity|apply H, Hw].
Qed.

Lemma triple_bind_returns {A B : Type} (I : World -> Prop) (p : Prog A) (f : A -> Prog B)
    (Q : JsError + B -> World -> Prop) :
  returns_keeping this O I p -> (forall a, triple this O I (f a) Q) ->
  triple this O I (bind p f) Q.
Proof.
  intros Hp Hf. eapply triple_bind; [exact Hp| |].
  - intros e w [[a Ha] _]. discriminate.
  - intros a. eapply triple_conseq; [apply (Hf a)| |auto]. intros w [_ Hw]. exact Hw.
Qed.

Lemma triple_finish {A : Type} (P : World -> Prop) (p : Prog A)
    (Q : JsError + A -> World -> Prop) (w : World) :
  triple this O P p Q -> P w ->
  Q (outcome (exec this O p w)) (finish (exec this O p w)).
Proof. intros H Hw. destruct (H w Hw) as [Hq Hd]. unfold finish. rewrite Hd. exact Hq. Qed.

End Rules.

(** ** Tactics that apply the rules along a program *)

Lemma writes_snoc (t : list Call) (c : Call) :
  is_write c = false -> writes (t ++ [c]) = writes t.
Proof. intros H. unfold writes. rewrite filter_snoc, H. apply app_nil_r. Qed.

Ltac keeps_world :=
  let w := fresh "w" in let Hw := fresh "Hw" in
  intros w Hw; cbn [handle act fst]; run_world;
  first [ exact Hw
        | destruct Hw as [? ?]; split;
          [assumption|run_world; rewrite writes_snoc by reflexivity; assumption]
        | idtac ].

Ltac keeps_step :=
  cbv beta iota zeta; cbn [negb andb orb];
  lazymatch goal with
  | |- keeps _ _ _ (bind _ _) => apply keeps_bind; [|intros ?]
  | |- keeps _ _ _ (try_catch _ _) => apply keeps_try_catch; [|intros ?]
  | |- keeps _ _ _ (for_of _ _) => apply keeps_for_of; intros ?
  | |- keeps _ _ _ (call ?c) => apply (keeps_call _ _ _ c); keeps_world
  | |- keeps _ _ _ (perform ?a) => apply (keeps_perform _ _ _ a); keeps_world
  | |- keeps _ _ _ (Ret _) => apply keeps_ret
  | |- keeps _ _ _ (Throw _) => apply keeps_throw
  | |- keeps _ _ _ (when _ _) => unfold when
  | |- keeps _ _ _ (match ?x with _ => _ end) => destruct x
  end.


Ltac keeps_all :=
  unfold unbridgeRoomByMxid, unbridgeRoom, RoomSyncroniser_delete, deleteForMxid,
    deleteForPuppet, deleteEntries, deleteEntry, remove_ghost, remove_aliases,
    UserSyncroniser_deleteForMxid, setRoomOverride, maybeGetClient, getPuppetClient,
    maybeGetMxid, maybeGet, getPartsFromMxid, getRoomOp, getClientFromTokenCallback,
    maybeLeaveGhost, give_power, Lock_wait, Lock_set, Lock_release;
  repeat keeps_step.

Ltac returns_world :=
  let w := fresh "w" in let Hw := fresh "Hw" in
  intros w Hw; cbn [handle act fst snd]; run_world;
  first [ exact Hw | split; [eexists; reflexivity|exact Hw] | idtac ].

Ltac returns_step :=
  cbv beta iota zeta; cbn [negb andb orb];
  lazymatch goal with
  | |- returns_keeping _ _ _ (bind _ _) => apply returns_keeping_bind; [|intros ?]
  | |- returns_keeping _ _ _ (try_catch _ _) =>
      apply returns_keeping_try_catch; [keeps_all|intros ?]
  | |- returns_keeping _ _ _ (for_of _ _) => apply returns_keeping_for_of; intros ?
  | |- returns_keeping _ _ _ (call ?c) => apply (returns_keeping_call _ _ _ c); returns_world
  | |- returns_keeping _ _ _ (perform ?a) =>
      apply (returns_keeping_perform _ _ _ a); returns_world
  | |- returns_keeping _ _ _ (Ret _) => apply returns_keeping_ret
  | |- returns_keeping _ _ _ (when _ _) => unfold when
  | |- returns_keeping _ _ _ (match ?x with _ => _ end) => destruct x
  end.

Ltac returns_all :=
  unfold remove_ghost, remove_aliases, UserSyncroniser_deleteForMxid,
    getRoomOp, getClientFromTokenCallback;
  repeat returns_step.

(** ** What the calls never write *)

Section Frames.
Variable this : PuppetBridge.
Variable O : Oracle.

(** X12.  [unbridgeRoom] and [unbridgeRoomByMxid] never touch the user
    table or the room overrides, whatever the stores hold and whatever the
    homeserver answers: they delete with [keepUsers = true]. *)
Theorem unbridgeRoom_keeps_users (w : World) (room : option IRemoteRoom) (mxid : string) :
  same_users w (finish (exec this O (unbridgeRoom this room) w)) /\
  same_users w (finish (exec this O (unbridgeRoomByMxid this mxid) w)).
Proof.
  split.
  - apply (keeps_finish this O (same_users w)); [|split; reflexivity].
    keeps_all.
  - apply (keeps_finish this O (same_users w)); [|split; reflexivity].
    keeps_all.
Qed.





(** [setRoomOverride] sends the member event and stores nothing; storing
    is left to [updateRoomOverride]. *)
Lemma setRoomOverride_persists_nothing (w : World) (userData : IRemoteUser)
    (roomId : string) (roomOverrideData : option IUserStoreRoomOverrideEntry)
    (client : option MatrixClient) (origUserData : option IUserStoreEntry) :
  same_stores w
    (finish (exec this O
               (setRoomOverride this userData roomId roomOverrideData client origUserData) w)).
Proof.
  apply (keeps_finish this O (same_stores w)); [|repeat split]. keeps_all.
Qed.

End Frames.

(** ** Deleting rooms *)

Section Delete.
Variable this : PuppetBridge.
Variable O : Oracle.

Hypothesis joined_rooms_answer :
  forall n, exists l, O n (intent_getJoinedRooms botIntent) = inr l.

(** One turn of the loop of [deleteEntries], when the bot's joined rooms can
    be fetched: it returns, and the room is gone from the three tables. *)
Lemma deleteEntry_run (keepUsers : bool) (e : IRoomStoreEntry)
    (m : gmap string IRoomStoreEntry) (o : gmap string string) (g : gmap string (list string)) :
  triple this O (room_tables m o g) (deleteEntry this keepUsers e)
    (fun out w =>
       match out with
       | inr _ => room_tables (delete (e_mxid e) m) (delete (e_mxid e) o) (delete (e_mxid e) g) w
       | inl _ => False
       end).
Proof.
  unfold deleteEntry.
  apply triple_bind_returns; [returns_all|intros opClient].
  apply triple_bind_returns; [destruct opClient; returns_all|intros _].
  eapply (triple_bind this O _ _
            (fun out w => (exists v, out = inr v) /\
                          room_tables (delete (e_mxid e) m) (delete (e_mxid e) o) g w)).
  { apply triple_call. intros w (Hm & Ho & Hg). cbn [handle fst snd]. run_world.
    split; [eexists; reflexivity|]. repeat split; [rewrite Hm; reflexivity|rewrite Ho; reflexivity|exact Hg]. }
  { intros err w [[v Hv] _]. discriminate. }
  intros deleted.
  eapply triple_conseq with (P := room_tables (delete (e_mxid e) m) (delete (e_mxid e) o) g);
    [|intros w [_ Hw]; exact Hw|intros out w H; exact H].
  apply triple_bind_returns; [returns_all|intros _].
  apply triple_bind_returns.
  { apply returns_keeping_call. intros w Hw. cbn [handle fst snd]. run_world.
    split; [apply joined_rooms_answer|exact Hw]. }
  intros botRooms.
  apply triple_bind_returns; [returns_all|intros _].
  apply triple_bind_returns; [returns_all|intros _].
  apply triple_bind_returns; [returns_all|intros ghosts].
  apply triple_bind_returns.
  { apply returns_keeping_for_of. intros ghost. unfold remove_ghost.
    destruct keepUsers; returns_all. }
  intros _.
  apply triple_call. intros w (Hm & Ho & Hg). cbn [handle fst snd]. run_world.
  repeat split; [exact Hm|exact Ho|rewrite Hg; reflexivity].
Qed.


Lemma without_snoc {V : Type} (l : list IRoomStoreEntry) (x : IRoomStoreEntry)
    (m : gmap string V) :
  without (l ++ [x]) m = delete (e_mxid x) (without l m).
Proof. unfold without. rewrite foldl_app. reflexivity. Qed.

Lemma deleteEntries_run (keepUsers : bool) (l : list IRoomStoreEntry)
    (m : gmap string IRoomStoreEntry) (o : gmap string string) (g : gmap string (list string)) :
  triple this O (room_tables m o g) (deleteEntries this l keepUsers)
    (fun out w =>
       match out with
       | inr _ => room_tables (without l m) (without l o) (without l g) w
       | inl _ => False
       end).
Proof.
  unfold deleteEntries.
  apply triple_bind_returns; [returns_all|intros _].
  apply (triple_for_of this O
           (fun done => room_tables (without done m) (without done o) (without done g))
           (fun _ _ => False)).
  intros done x rest _. rewrite !without_snoc. apply deleteEntry_run.
Qed.

End Delete.

Section WithoutLookup.
Context {V : Type}.

Lemma lookup_without_in (l : list IRoomStoreEntry) (m : gmap string V) (k : string) :
  k ∈ e_mxid <$> l -> without l m !! k = None.
Proof.
  induction l as [|x l IH] using rev_ind; [intros H; inversion H|].
  rewrite without_snoc, fmap_app, elem_of_app. intros [H|H].
  - destruct (decide (e_mxid x = k)) as [->|Hne].
    + apply lookup_delete_eq.
    + rewrite lookup_delete_ne by exact Hne. apply IH, H.
  - cbn in H. apply list_elem_of_singleton in H. subst k. apply lookup_delete_eq.
Qed.

Lemma lookup_without_notin (l : list IRoomStoreEntry) (m : gmap string V) (k : string) :
  k ∉ e_mxid <$> l -> without l m !! k = m !! k.
Proof.
  induction l as [|x l IH] using rev_ind; [reflexivity|].
  rewrite without_snoc, fmap_app, not_elem_of_app. intros [H1 H2].
  cbn in H2. rewrite list_elem_of_singleton in H2.
  rewrite lookup_delete_ne by congruence. apply IH, H1.
Qed.

End WithoutLookup.

Lemma elem_of_getByPuppetId (puppetId : Z) (m : gmap string IRoomStoreEntry)
    (e : IRoomStoreEntry) :
  e ∈ getByPuppetId puppetId m <-> (exists k, m !! k = Some e) /\ e_puppetId e = puppetId.
Proof.
  unfold getByPuppetId. rewrite list_elem_of_In, List.filter_In, <- list_elem_of_In, elem_of_rows.
  rewrite Z.eqb_eq. reflexivity.
Qed.

Section DeleteTheorems.
Variable this : PuppetBridge.
Variable O : Oracle.

(** X14.  [deleteForPuppet], when the bot's joined rooms can be fetched:
    it returns; no mapping of the puppet is left; the operator records and
    ghost lists of the puppet's rooms are gone; and the mappings of other
    puppets are what they were.  (Whatever else the homeserver answers:
    failures to remove aliases or to leave are logged and skipped.) *)
Theorem deleteForPuppet_removes_all (w : World) (puppetId : Z) :
  (forall n, exists l, O n (intent_getJoinedRooms botIntent) = inr l) ->
  rooms_keyed w ->
  let r := exec this O (deleteForPuppet this puppetId) w in
  outcome r = inr tt /\
  getByPuppetId puppetId (roomStore (finish r)) = [] /\
  (forall e, e ∈ getByPuppetId puppetId (roomStore w) ->
     roomOps (finish r) !! e_mxid e = None /\ ghostsInRoom (finish r) !! e_mxid e = None) /\
  (forall k e, roomStore w !! k = Some e -> e_puppetId e <> puppetId ->
     roomStore (finish r) !! k = Some e).
Proof.
  intros Hjoined Hkeyed. unfold deleteForPuppet. run.
  set (entries := getByPuppetId puppetId (roomStore w)).
  match goal with |- context [exec this O ?p ?W] =>
    pose proof (triple_finish this O _ p _ W
                  (deleteEntries_run this O Hjoined false entries
                     (roomStore w) (roomOps w) (ghostsInRoom w))
                  (conj eq_refl (conj eq_refl eq_refl))) as H;
    destruct (outcome (exec this O p W)) as [e|[]]; [destruct H|];
    destruct H as (Hm & Ho & Hg); rewrite Hm, Ho, Hg
  end.
  split_and!.
  - reflexivity.
  - destruct (getByPuppetId puppetId (without entries (roomStore w))) as [|x l'] eqn:E;
      [reflexivity|exfalso].
    assert (Hx : x ∈ getByPuppetId puppetId (without entries (roomStore w)))
      by (rewrite E; left).
    apply elem_of_getByPuppetId in Hx as [[k Hk] Hp].
    destruct (decide (k ∈ e_mxid <$> entries)) as [Hin|Hout].
    + rewrite (lookup_without_in _ _ _ Hin) in Hk. discriminate.
    + rewrite (lookup_without_notin _ _ _ Hout) in Hk. apply Hout.
      rewrite <- (Hkeyed k x Hk). apply list_elem_of_fmap. exists x. split; [reflexivity|].
      apply elem_of_getByPuppetId. split; [exists k; exact Hk|exact Hp].
  - intros e He. assert (Hin : e_mxid e ∈ e_mxid <$> entries).
    { apply list_elem_of_fmap. exists e. split; [reflexivity|exact He]. }
    split; apply lookup_without_in, Hin.
  - intros k e Hk Hp. rewrite lookup_without_notin; [exact Hk|].
    intros Hin. apply list_elem_of_fmap in Hin as (e' & -> & He').
    apply elem_of_getByPuppetId in He' as [[k' Hk'] Hp'].
    rewrite <- (Hkeyed k' e' Hk') in Hk'. congruence.
Qed.

End DeleteTheorems.

Section DeleteMore.

Variable this : PuppetBridge.
Variable O : Oracle.

(** The room table's invariant is kept by every call and every program. *)
Lemma handle_rooms_keyed (c : Call) (w : World) :
  rooms_keyed w -> rooms_keyed (fst (handle this O c w)).
Proof.
  intros H. unfold rooms_keyed in *.
  destruct c; try destruct s; cbn [handle fst]; run_world; try exact H.
  - apply map_Forall_insert_2; [reflexivity|exact H].
  - apply map_Forall_delete, H.
  - destruct who; exact H.
Qed.

Lemma exec_rooms_keyed {A : Type} (p : Prog A) (w : World) :
  rooms_keyed w ->
  rooms_keyed (at_return (exec this O p w)) /\
  forall w', rooms_keyed w' -> rooms_keyed (detached (exec this O p w) w').
Proof.
  revert w. induction p as [A a|A e|A a k IH|A c k IH|A bg IHbg k IH]; intros w Hw; cbn [exec].
  - split; [exact Hw|auto].
  - split; [exact Hw|auto].
  - destruct (act a w) as [w1 r] eqn:E. apply IH.
    assert (roomStore w1 = roomStore w) as Hs.
    { destruct a; cbn in E; injection E as <- _; reflexivity. }
    unfold rooms_keyed. rewrite Hs. exact Hw.
  - pose proof (handle_rooms_keyed c w Hw) as H1.
    destruct (handle this O c w) as [w1 r]. apply IH, H1.
  - destruct (IH w Hw) as [H1 H2]. split; [exact H1|].
    intros w' Hw'. cbn. apply H2.
    destruct (IHbg w' Hw') as [H3 H4]. unfold settle_floating.
    apply H4. destruct (outcome (exec this O bg w')); [|exact H3]. exact H3.
Qed.

(** X15.  When the bot's joined rooms cannot be fetched, [deleteEntries]
    rejects with that error in the middle of the first entry: the entry's
    mapping and operator record are already deleted, while its ghost list
    is not emptied and the remaining entries are not visited. *)
Theorem deleteEntries_stops_at_failure (w : World) (e : IRoomStoreEntry)
    (rest : list IRoomStoreEntry) (keepUsers : bool) (err : JsError) :
  (forall n, O n (intent_getJoinedRooms botIntent) = inl err) ->
  let r := exec this O (deleteEntries this (e :: rest) keepUsers) w in
  outcome r = inl err /\
  roomStore (finish r) = delete (e_mxid e) (roomStore w) /\
  roomOps (finish r) = delete (e_mxid e) (roomOps w) /\
  ghostsInRoom (finish r) = ghostsInRoom w.
Proof.
  intros Hjoined.
  set (m := roomStore w). set (o := roomOps w). set (g := ghostsInRoom w).
  assert (H : triple this O (room_tables m o g) (deleteEntries this (e :: rest) keepUsers)
                (fun out w' => out = inl err /\
                   room_tables (delete (e_mxid e) m) (delete (e_mxid e) o) g w')).
  { unfold deleteEntries.
    apply triple_bind_returns; [returns_all|intros _].
    cbn [for_of].
    eapply (triple_bind this O _ _
              (fun out w' => out = inl err /\
                 room_tables (delete (e_mxid e) m) (delete (e_mxid e) o) g w')).
    2: { intros e' w' Hq. exact Hq. }
    2: { intros a. intros w' [Hq _]. discriminate. }
    unfold deleteEntry.
    apply triple_bind_returns; [returns_all|intros opClient].
    apply triple_bind_returns; [destruct opClient; returns_all|intros _].
    eapply (triple_bind this O _ _
              (fun out w' => (exists v, out = inr v) /\
                 room_tables (delete (e_mxid e) m) (delete (e_mxid e) o) g w')).
    { apply triple_call. intros w' (Hm & Ho & Hg). cbn [handle fst snd]. run_world.
      split; [eexists; reflexivity|].
      repeat split; [rewrite Hm; reflexivity|rewrite Ho; reflexivity|exact Hg]. }
    { intros err' w' [[v Hv] _]. discriminate. }
    intros deleted.
    eapply triple_conseq with (P := room_tables (delete (e_mxid e) m) (delete (e_mxid e) o) g);
      [|intros w' [_ Hw']; exact Hw'|intros out w' Hq; exact Hq].
    apply triple_bind_returns; [returns_all|intros _].
    eapply (triple_bind this O _ _
              (fun out w' => out = inl err /\
                 room_tables (delete (e_mxid e) m) (delete (e_mxid e) o) g w')).
    { apply triple_call. intros w' Hw'. cbn [handle fst snd]. run_world.
      split; [apply Hjoined|exact Hw']. }
    { intros e' w' [[= ->] Hq]. split; [reflexivity|exact Hq]. }
    intros a w' [Hq _]. discriminate. }
  intros r.
  destruct (triple_finish this O _ _ _ w H (conj eq_refl (conj eq_refl eq_refl)))
    as (Hout & Hm & Ho & Hg).
  split_and!; assumption.
Qed.

(** X16.  [deleteForMxid] of a mapped room id, when the bot's joined rooms
    can be fetched, removes the mapping, the operator record and the ghost
    list of that room, and nothing else from these tables. *)
Theorem deleteForMxid_removes (w : World) (mxid : string) (room : IRoomStoreEntry) :
  (forall n, exists l, O n (intent_getJoinedRooms botIntent) = inr l) ->
  roomStore w !! mxid = Some room ->
  e_mxid room = mxid ->
  let r := exec this O (deleteForMxid this mxid) w in
  outcome r = inr tt /\
  roomStore (finish r) = delete mxid (roomStore w) /\
  roomOps (finish r) = delete mxid (roomOps w) /\
  ghostsInRoom (finish r) = delete mxid (ghostsInRoom w).
Proof.
  intros Hjoined Hroom Hkey. unfold deleteForMxid. run. rewrite Hroom.
  match goal with |- context [exec this O ?p ?W] =>
    pose proof (triple_finish this O _ p _ W
                  (deleteEntries_run this O Hjoined false [room]
                     (roomStore w) (roomOps w) (ghostsInRoom w))
                  (conj eq_refl (conj eq_refl eq_refl))) as H;
    destruct (outcome (exec this O p W)) as [e|[]]; [destruct H|];
    destruct H as (Hm & Ho & Hg); rewrite Hm, Ho, Hg
  end.
  cbn [without foldl]. rewrite Hkey. split_and!; reflexivity.
Qed.

End DeleteMore.

(** ** maybeLeaveGhost *)

Section LeaveGhost.
Variable this : PuppetBridge.
Variable O : Oracle.

(** X17.  A ghost that is not in the room, or is the only ghost there,
    stays: [maybeLeaveGhost] asks for the room's ghosts and nothing else,
    calls the homeserver not at all and writes nothing. *)
Theorem maybeLeaveGhost_stays (w : World) (roomMxid userMxid : string) :
  let ghosts := getGhostsInRoom roomMxid (ghostsInRoom w) in
  userMxid ∉ ghosts \/ length ghosts = 1%nat ->
  let r := exec this O (maybeLeaveGhost roomMxid userMxid) w in
  outcome r = inr tt /\
  tick (finish r) = tick w /\
  same_stores w (finish r) /\
  trace (finish r) = (trace w ++ [puppetStore_getGhostsInRoom roomMxid])%list.
Proof.
  intros ghosts Hstay. unfold maybeLeaveGhost. run. fold ghosts. unfold includes.
  destruct (bool_decide (userMxid ∈ ghosts)) eqn:Hin; run.
  - apply bool_decide_eq_true in Hin. destruct Hstay as [Hnot|Hone]; [contradiction|].
    rewrite Hone. run. repeat split.
  - repeat split.
Qed.

(** X18.  A ghost that is in the room with others and is not the room's
    operator leaves: the only calls are the two lookups, the leave and the
    removal from the room's ghost list; power levels and the operator
    record are not touched. *)
Theorem maybeLeaveGhost_leaves (w : World) (roomMxid userMxid : string) :
  let ghosts := getGhostsInRoom roomMxid (ghostsInRoom w) in
  userMxid ∈ ghosts -> length ghosts <> 1%nat ->
  roomOps w !! roomMxid <> Some userMxid ->
  (forall n, O n (intent_leaveRoom (IntentForUserId userMxid) roomMxid) = inr tt) ->
  let r := exec this O (maybeLeaveGhost roomMxid userMxid) w in
  outcome r = inr tt /\
  trace (finish r) =
    (trace w ++ [puppetStore_getGhostsInRoom roomMxid; roomStore_getRoomOp roomMxid;
                 intent_leaveRoom (IntentForUserId userMxid) roomMxid;
                 puppetStore_leaveGhostFromRoom userMxid roomMxid])%list /\
  roomOps (finish r) = roomOps w /\
  userMxid ∉ getGhostsInRoom roomMxid (ghostsInRoom (finish r)).
Proof.
  intros ghosts Hin Hlen Hop Hleave. unfold maybeLeaveGhost. run. fold ghosts. unfold includes.
  rewrite (bool_decide_eq_true_2 _ Hin). run.
  destruct (Nat.eqb_spec (length ghosts) 1); [contradiction|]. run.
  rewrite (bool_decide_eq_false_2 _ Hop). run.
  rewrite Hleave. run.
  split_and!; [reflexivity|rewrite <- !app_assoc; reflexivity|reflexivity|].
  unfold getGhostsInRoom at 1. rewrite lookup_insert_eq. cbn [default from_option id].
  rewrite list_elem_of_In, List.filter_In. intros [_ H].
  rewrite String.eqb_refl in H. discriminate.
Qed.


Lemma two_ghosts (ghosts : list string) (userMxid newOp : string) :
  userMxid ∈ ghosts ->
  List.find (fun element => negb (String.eqb element userMxid)) ghosts = Some newOp ->
  length ghosts <> 1%nat.
Proof.
  intros Hin Hfind. apply List.find_some in Hfind as [Hnew Hne].
  apply list_elem_of_In in Hin.
  destruct ghosts as [|a [|b l]]; cbn; [destruct Hin| |lia].
  destruct Hin as [<-|[]]. destruct Hnew as [<-|[]].
  rewrite String.eqb_refl in Hne. discriminate.
Qed.

(** X19.  The operator hands over before it leaves: the first other ghost
    gets the operator's power level in the power levels the operator's own
    client sends, is recorded as the room's operator, and only then does
    the ghost leave. *)
Theorem maybeLeaveGhost_passes_operator (w : World) (roomMxid userMxid newOp : string)
    (users : gmap string Z) (rest : string) :
  let ghosts := getGhostsInRoom roomMxid (ghostsInRoom w) in
  let client := underlyingClient (IntentForUserId userMxid) in
  let handed :=
    c_power_levels (Some (partial_alter (fun _ => users !! userMxid) newOp users)) rest in
  userMxid ∈ ghosts ->
  roomOps w !! roomMxid = Some userMxid ->
  List.find (fun element => negb (String.eqb element userMxid)) ghosts = Some newOp ->
  newOp <> "" ->
  (forall n, O n (client_getRoomStateEvent client roomMxid "m.room.power_levels" "") =
             inr (c_power_levels (Some users) rest)) ->
  (forall n, exists ev,
     O n (client_sendStateEvent client roomMxid "m.room.power_levels" "" handed) = inr ev) ->
  (forall n, O n (intent_leaveRoom (IntentForUserId userMxid) roomMxid) = inr tt) ->
  let r := exec this O (maybeLeaveGhost roomMxid userMxid) w in
  outcome r = inr tt /\
  trace (finish r) =
    (trace w ++ [puppetStore_getGhostsInRoom roomMxid; roomStore_getRoomOp roomMxid;
                 client_getRoomStateEvent client roomMxid "m.room.power_levels" "";
                 client_sendStateEvent client roomMxid "m.room.power_levels" "" handed;
                 roomStore_setRoomOp roomMxid newOp;
                 intent_leaveRoom (IntentForUserId userMxid) roomMxid;
                 puppetStore_leaveGhostFromRoom userMxid roomMxid])%list /\
  roomOps (finish r) = <[roomMxid := newOp]> (roomOps w) /\
  userMxid ∉ getGhostsInRoom roomMxid (ghostsInRoom (finish r)).
Proof.
  intros ghosts client handed Hin Hop Hfind Hnew Hget Hsend Hleave.
  pose proof (two_ghosts ghosts userMxid newOp Hin Hfind) as Hlen.
  unfold maybeLeaveGhost. run. fold ghosts. unfold includes.
  rewrite (bool_decide_eq_true_2 _ Hin). run.
  destruct (Nat.eqb_spec (length ghosts) 1); [contradiction|]. run.
  rewrite Hop. rewrite (bool_decide_eq_true_2 _ eq_refl). run.
  rewrite Hfind. run.
  destruct (String.eqb_spec newOp "") as [|_]; [contradiction|]. run.
  fold client. rewrite Hget. unfold give_power. run. fold handed.
  match goal with |- context [O ?n (client_sendStateEvent _ _ _ _ _)] =>
    destruct (Hsend n) as [ev ->] end.
  run. rewrite Hleave. run.
  split_and!; [reflexivity|rewrite <- !app_assoc; reflexivity|reflexivity|].
  unfold getGhostsInRoom at 1. rewrite lookup_insert_eq. cbn [default from_option id].
  rewrite list_elem_of_In, List.filter_In. intros [_ H].
  rewrite String.eqb_refl in H. discriminate.
Qed.

(** X20.  When the power levels cannot be written, the operator stays:
    [maybeLeaveGhost] returns normally, logs the error, does not leave and
    writes nothing to the tables. *)
Theorem maybeLeaveGhost_operator_stays_on_failure (w : World)
    (roomMxid userMxid newOp : string) (users : gmap string Z) (rest : string)
    (err : JsError) :
  let ghosts := getGhostsInRoom roomMxid (ghostsInRoom w) in
  let client := underlyingClient (IntentForUserId userMxid) in
  userMxid ∈ ghosts ->
  roomOps w !! roomMxid = Some userMxid ->
  List.find (fun element => negb (String.eqb element userMxid)) ghosts = Some newOp ->
  newOp <> "" ->
  (forall n, O n (client_getRoomStateEvent client roomMxid "m.room.power_levels" "") =
             inr (c_power_levels (Some users) rest)) ->
  (forall n content,
     O n (client_sendStateEvent client roomMxid "m.room.power_levels" "" content) = inl err) ->
  let r := exec this O (maybeLeaveGhost roomMxid userMxid) w in
  outcome r = inr tt /\
  List.filter is_leaveRoom (trace (finish r)) = List.filter is_leaveRoom (trace w) /\
  same_stores w (finish r) /\
  last (logs (finish r)) = Some (error, "Couldn't set new room OP").
Proof.
  intros ghosts client Hin Hop Hfind Hnew Hget Hsend.
  pose proof (two_ghosts ghosts userMxid newOp Hin Hfind) as Hlen.
  unfold maybeLeaveGhost. run. fold ghosts. unfold includes.
  rewrite (bool_decide_eq_true_2 _ Hin). run.
  destruct (Nat.eqb_spec (length ghosts) 1); [contradiction|]. run.
  rewrite Hop. rewrite (bool_decide_eq_true_2 _ eq_refl). run.
  rewrite Hfind. run.
  destruct (String.eqb_spec newOp "") as [|_]; [contradiction|]. run.
  fold client. rewrite Hget. unfold give_power. run.
  rewrite Hsend. run.
  split_and!; [reflexivity| |repeat split|apply last_snoc].
  rewrite !filter_snoc. cbn [is_leaveRoom]. rewrite !app_nil_r. reflexivity.
Qed.

End LeaveGhost.

(** ** getClient and updateRoomOverride *)

Section UserSync.
Variable this : PuppetBridge.
Variable O : Oracle.

(** X21.  A remote user that is the puppet's own account, with a token the
    homeserver accepts, gets the puppet's own client: the calls are the
    puppet lookup, the token lookup and the token check; no key is taken,
    no ghost is registered, nothing is stored. *)
Theorem getClient_double_puppet (w : World) (data : IRemoteUser) (p : IPuppet)
    (t : ITokenResponse) (userId : string) :
  puppets w !! u_puppetId data = Some p ->
  pp_userId p = Some (u_userId data) ->
  puppetTokens w !! u_puppetId data = Some t ->
  O (tick w) (client_getUserId (NewMatrixClient t)) = inr userId ->
  let r := exec this O (getClient this data) w in
  outcome r = inr (NewMatrixClient t) /\
  held_client (finish r) = held_client w /\
  same_stores w (finish r) /\
  trace (finish r) =
    (trace w ++ [provisioner_get (u_puppetId data);
                 provisioner_getToken (inl (u_puppetId data));
                 client_getUserId (NewMatrixClient t)])%list.
Proof.
  intros Hp Hu Ht Hid. unfold getClient. run. rewrite Hp. unfold is_puppet_of.
  rewrite (bool_decide_eq_true_2 _ Hu). unfold getPuppetClient. run. rewrite Ht.
  unfold getClientFromTokenCallback. run. rewrite Hid. run.
  split_and!; [reflexivity|reflexivity|repeat split|rewrite <- !app_assoc; reflexivity].
Qed.




(** X24.  [updateRoomOverride] never rejects, whatever the reconciler and
    the homeserver do: every error ends in its log. *)
Theorem updateRoomOverride_never_rejects (w : World) (client : MatrixClient)
    (userData : IRemoteUser) (roomId : string) (roomOverride : IRemoteProfile)
    (origUserData : option IUserStoreEntry) :
  outcome (exec this O
             (updateRoomOverride this client userData roomId roomOverride origUserData) w) =
    inr tt.
Proof.
  unfold updateRoomOverride. rewrite exec_try_catch. cbv zeta.
  match goal with |- context [outcome (exec this O ?p w)] =>
    destruct (outcome (exec this O p w)) as [e|[]] end; reflexivity.
Qed.



End UserSync.

(** ** bridgeRoom, and getMxid for a mapped room *)

Lemma media_no_room_event (t : list Call) :
  forallb is_media t = true -> List.filter is_room_event t = [].
Proof.
  induction t as [|c t IH]; [reflexivity|]. cbn [forallb List.filter].
  intros H. apply andb_prop in H as [Hc Ht].
  destruct c; try discriminate Hc; cbn [is_room_event]; apply IH, Ht.
Qed.

Section Bridge.
Variable this : PuppetBridge.
Variable O : Oracle.

(** X27.  [bridgeRoom] does nothing unless the hook confirms the room as a
    group room of a known puppet: after the one call of the hook it
    returns, with no key taken and nothing written. *)
Theorem bridgeRoom_declines (w : World) (roomData : IRemoteRoom)
    (answer : option IRemoteRoom) :
  hooks_createRoom_set this = true ->
  O (tick w) (hooks_createRoom roomData) = inr answer ->
  ~ bridgeable w roomData answer ->
  let r := exec this O (bridgeRoom this roomData) w in
  outcome r = inr tt /\
  held_mxid (finish r) = held_mxid w /\
  same_stores w (finish r) /\
  tick (finish r) = S (tick w).
Proof.
  intros Hhook Hanswer Hno. unfold bridgeRoom. rewrite Hhook. run. rewrite Hanswer. run.
  destruct answer as [room|]; run; [|repeat split].
  destruct (Z.eqb_spec (r_puppetId roomData) (r_puppetId room)) as [Hp|Hp]; run;
    [|repeat split].
  destruct (String.eqb_spec (r_roomId roomData) (r_roomId room)) as [Hr|Hr]; run;
    [|repeat split].
  destruct (r_isDirect room) eqn:Hd; run; [repeat split|].
  destruct (puppets w !! r_puppetId room) as [puppet|] eqn:Hpup; run; [|repeat split].
  exfalso. apply Hno. cbn. rewrite Hpup. repeat split; try congruence. eexists; reflexivity.
Qed.


End Bridge.

Section GetMxidUpdate.
Variable this : PuppetBridge.
Variable O : Oracle.

(** [getRoomOp] returns, whatever it finds, and sends nothing. *)
Lemma getRoomOp_run (w : World) (room : string) :
  exists w2 c t,
    exec this O (getRoomOp this room) w = ran w2 (inr c) (fun w' => w') /\
    held_mxid w2 = held_mxid w /\ roomStore w2 = roomStore w /\ roomOps w2 = roomOps w /\
    trace w2 = (trace w ++ t)%list /\ List.filter is_room_event t = [].
Proof.
  unfold getRoomOp. run.
  destruct (roomOps w !! room) as [op|]; run.
  2: { do 3 eexists. split; [reflexivity|]. run_world.
       split_and!; try reflexivity. }
  destruct (String.eqb op ""); run.
  { do 3 eexists. split; [reflexivity|]. run_world. split_and!; try reflexivity. }
  destruct (AS_isNamespacedUser this op); run.
  { do 3 eexists. split; [reflexivity|]. run_world. split_and!; try reflexivity. }
  unfold getClientFromTokenCallback.
  destruct (mxidTokens w !! op) as [t|]; run.
  2: { do 3 eexists. split; [reflexivity|]. run_world. split_and!; try reflexivity.
       rewrite <- app_assoc. reflexivity. reflexivity. }
  destruct (O (tick w) (client_getUserId (NewMatrixClient t))); run.
  all: do 3 eexists; (split; [reflexivity|]); run_world; split_and!; try reflexivity.
  all: try (rewrite <- !app_assoc; reflexivity). all: reflexivity.
Qed.


(** X29.  [getMxid] for a mapped room whose name, avatar, topic and group
    did not change: it returns the stored room id with [created = false],
    sends no state event, creates no room, stores nothing and releases the
    key, whoever the room's operator is and whatever [doCreate] says. *)
Theorem getMxid_unchanged (w : World) (data : IRemoteRoom) (client : option MatrixClient)
    (invites : option (list string)) (doCreate : bool) (room : IRoomStoreEntry)
    (d : IProfileDbEntry) :
  let key := lockKey (r_puppetId data) (r_roomId data) in
  getByRemote (r_puppetId data) (r_roomId data) (roomStore w) = Some room ->
  reconciles this O (Some (e_profile room)) (room_profile data) (namePatterns_room this) d ->
  d_name d = None -> d_avatarMxc d = None ->
  defined_and_differs (r_topic data) (e_topic room) = false ->
  defined_and_differs (r_groupId data) (e_groupId room) = false ->
  let r := exec this O (getMxid this data client invites doCreate) w in
  outcome r = inr (e_mxid room, false) /\
  roomStore (finish r) = roomStore w /\
  roomOps (finish r) = roomOps w /\
  List.filter is_room_event (trace (finish r)) = List.filter is_room_event (trace w) /\
  held_mxid (finish r) = held_mxid w ∖ {[key]}.
Proof.
  intros key Hroom Hrec Hname Havatar Htopic Hgroup.
  unfold getMxid. fold key. run.
  destruct (bool_decide (key ∈ held_mxid w)); run; rewrite Hroom; run;
    unfold getMxid_update;
    match goal with
    | |- context [exec this O (try_catch (bind (bind (getRoomOp this ?m) ?k) ?g) ?h) ?W] =>
        destruct (getRoomOp_run W m) as (w1 & c & t1 & Heq1 & Hm1 & Hrooms1 & Hops1 & Ht1 & Hf1);
        run_world_in Hm1; run_world_in Hrooms1; run_world_in Hops1; run_world_in Ht1;
        rewrite (exec_try_bind_bind_ret this O _ k g h W w1 c Heq1)
    end; run;
    match goal with
    | |- context [exec this O (try_catch (bind (bind (Util_ProcessProfileUpdate this ?o ?n ?p ?u) ?k) ?g) ?h) ?W] =>
        destruct (Hrec u W) as (w2 & Heq & Hm & _ & Hrooms & Hops & _ & _ & _ & _ & _ & _
                                & t2 & Ht2 & Hf2);
        rewrite (exec_try_bind_bind_ret this O _ k g h W w2 d Heq)
    end; run; rewrite Hname, Havatar, Htopic, Hgroup; run;
    unfold getMxid_finish; run;
    destruct (groupSyncEnabled this); run;
    rewrite Hm, Hrooms, Hops, Ht2, Hm1, Hrooms1, Hops1, Ht1.
  all: split_and!; [reflexivity|reflexivity|reflexivity| |].
  all: try apply released_after_timeout; try apply released_after_set.
  all: rewrite !List.filter_app, Hf1, (media_no_room_event _ Hf2); cbn;
       rewrite !app_nil_r; reflexivity.
Qed.

(** X30.  A new name of a mapped room is sent as [m.room.name] by the
    client of the room's operator (a ghost of the bridge), not by the
    client the caller passed; it is the only room event, and the new
    profile is stored under the room's id. *)
Theorem getMxid_renames_as_operator (w : World) (data : IRemoteRoom)
    (client : option MatrixClient) (invites : option (list string)) (doCreate : bool)
    (room : IRoomStoreEntry) (d : IProfileDbEntry) (op name : string) :
  let opClient := underlyingClient (IntentForUserId op) in
  getByRemote (r_puppetId data) (r_roomId data) (roomStore w) = Some room ->
  roomOps w !! e_mxid room = Some op ->
  op <> "" ->
  AS_isNamespacedUser this op = true ->
  reconciles this O (Some (e_profile room)) (room_profile data) (namePatterns_room this) d ->
  d_name d = Some name -> d_avatarMxc d = None ->
  defined_and_differs (r_topic data) (e_topic room) = false ->
  defined_and_differs (r_groupId data) (e_groupId room) = false ->
  (forall n c content, exists ev,
     O n (client_sendStateEvent c (e_mxid room) "m.room.name" "" content) = inr ev) ->
  let r := exec this O (getMxid this data client invites doCreate) w in
  outcome r = inr (e_mxid room, false) /\
  List.filter is_room_event (trace (finish r)) =
    (List.filter is_room_event (trace w) ++
     [client_sendStateEvent opClient (e_mxid room) "m.room.name" "" (c_name (Some name))])%list /\
  roomStore (finish r) = <[e_mxid room := renamed_entry room d]> (roomStore w).
Proof.
  intros opClient Hroom Hop Hne Hns Hrec Hname Havatar Htopic Hgroup Hsend.
  unfold getMxid. run.
  match goal with |- context [bool_decide ?P] => destruct (bool_decide P) end; run;
    rewrite Hroom; run;
    unfold getMxid_update, getRoomOp; run; rewrite Hop; run;
    (destruct (String.eqb_spec op "") as [|_]; [contradiction|]); run; rewrite Hns; run;
    match goal with
    | |- context [exec this O (try_catch (bind (bind (Util_ProcessProfileUpdate this ?o ?n ?p ?u) ?k) ?g) ?h) ?W] =>
        destruct (Hrec u W) as (w2 & Heq & Hm & _ & Hrooms & Hops & _ & _ & _ & _ & _ & _
                                & t2 & Ht2 & Hf2);
        run_world_in Hm; run_world_in Hrooms; run_world_in Hops; run_world_in Ht2;
        rewrite (exec_try_bind_bind_ret this O _ k g h W w2 d Heq)
    end; run; rewrite Hname, Havatar, Htopic, Hgroup; run;
    match goal with |- context [O ?n (client_sendStateEvent ?c ?m ?t ?s ?x)] =>
      destruct (Hsend n c x) as [ev ->] end; run;
    unfold getMxid_finish; run;
    destruct (groupSyncEnabled this); run;
    rewrite Hrooms, Ht2.
  all: split_and!; [reflexivity| |reflexivity].
  all: rewrite !List.filter_app, (media_no_room_event _ Hf2); cbn;
       rewrite !app_nil_r, Hname; reflexivity.
Qed.

End GetMxidUpdate.

(** ** The theorems at concrete inputs *)

(** The reconciler of [demo_bridge] on a profile without avatar. *)
Lemma demo_reconciles (this : PuppetBridge) (O : Oracle)
    (oldProfile : option IProfileDbEntry) (newProfile : IRemoteProfile)
    (namePattern : string) :
  Util_ProcessProfileUpdate this = Util_ProcessProfileUpdate demo_bridge ->
  p_avatarUrl newProfile = None ->
  reconciles this O oldProfile newProfile namePattern
    (name_change
       match p_name newProfile with
       | Some n => if bool_decide ((oldProfile ≫= d_name) = Some n) then None else Some n
       | None => None
       end).
Proof.
  intros Hthis Havatar uploadFn w. exists w. rewrite Hthis.
  cbn [Util_ProcessProfileUpdate demo_bridge]. unfold ProcessProfileUpdate_spec.
  rewrite Havatar. cbn [exec].
  split_and!; try reflexivity.
  exists []. split; [symmetry; apply app_nil_r|reflexivity].
Qed.

Lemma filename_of_url_shape_witness :
  exists before stem ext rest,
    "https://host/cat.png" = before +:+ "/" +:+ "cat.png" +:+ rest /\
    "cat.png" = stem +:+ "." +:+ ext /\
    stem <> "" /\ ext <> "" /\
    forallb not_dot_slash (list_ascii_of_string stem) = true /\
    forallb is_alnum (list_ascii_of_string ext) = true /\
    (rest = "" \/ exists rest', rest = String "?" rest').
Proof. apply (filename_of_url_shape "https://host/cat.png" "cat.png"). reflexivity. Defined.





Lemma updateRoom_unmapped_witness :
  let r := exec demo_bridge friendly (updateRoom demo_bridge chan1) empty_world in
  outcome r = inr tt /\
  tick (finish r) = tick empty_world /\
  same_stores empty_world (finish r) /\
  writes (trace (finish r)) = writes (trace empty_world) /\
  held_mxid (finish r) = held_mxid empty_world ∖ {[lockKey 3 "chan1"]}.
Proof. apply (updateRoom_unmapped demo_bridge friendly empty_world chan1). reflexivity. Defined.

Lemma insert_then_lookup_witness :
  let r := exec demo_bridge friendly (insert chan1_mxid chan1) empty_world in
  outcome r = inr tt /\
  held_mxid (finish r) = held_mxid empty_world ∖ {[lockKey 3 "chan1"]} /\
  outcome (exec demo_bridge friendly (maybeGetMxid 3 "chan1") (finish r)) =
    inr (Some chan1_mxid) /\
  outcome (exec demo_bridge friendly (getPartsFromMxid demo_bridge chan1_mxid) (finish r)) =
    inr (Some chan1).
Proof.
  apply (insert_then_lookup demo_bridge friendly empty_world chan1_mxid chan1); reflexivity.
Defined.

Lemma deleteForPuppet_removes_all_witness :
  let r := exec demo_bridge friendly (deleteForPuppet demo_bridge 3) mapped_world in
  outcome r = inr tt /\
  getByPuppetId 3 (roomStore (finish r)) = [] /\
  (forall e, e ∈ getByPuppetId 3 (roomStore mapped_world) ->
     roomOps (finish r) !! e_mxid e = None /\ ghostsInRoom (finish r) !! e_mxid e = None) /\
  (forall k e, roomStore mapped_world !! k = Some e -> e_puppetId e <> 3 ->
     roomStore (finish r) !! k = Some e).
Proof.
  apply (deleteForPuppet_removes_all demo_bridge friendly mapped_world 3).
  - intros n. eexists. reflexivity.
  - apply map_Forall_singleton. reflexivity.
Defined.

Lemma deleteEntries_stops_at_failure_witness :
  let r := exec demo_bridge (hostile "M_UNKNOWN")
             (deleteEntries demo_bridge [chan1_entry] false) mapped_world in
  outcome r = inl (MatrixError "M_UNKNOWN") /\
  roomStore (finish r) = delete chan1_mxid (roomStore mapped_world) /\
  roomOps (finish r) = delete chan1_mxid (roomOps mapped_world) /\
  ghostsInRoom (finish r) = ghostsInRoom mapped_world.
Proof.
  apply (deleteEntries_stops_at_failure demo_bridge (hostile "M_UNKNOWN") mapped_world
           chan1_entry [] false (MatrixError "M_UNKNOWN")).
  intros n. reflexivity.
Defined.

Lemma deleteForMxid_removes_witness :
  let r := exec demo_bridge friendly (deleteForMxid demo_bridge chan1_mxid) mapped_world in
  outcome r = inr tt /\
  roomStore (finish r) = delete chan1_mxid (roomStore mapped_world) /\
  roomOps (finish r) = delete chan1_mxid (roomOps mapped_world) /\
  ghostsInRoom (finish r) = delete chan1_mxid (ghostsInRoom mapped_world).
Proof.
  apply (deleteForMxid_removes demo_bridge friendly mapped_world chan1_mxid chan1_entry).
  - intros n. eexists. reflexivity.
  - reflexivity.
  - reflexivity.
Defined.

Lemma maybeLeaveGhost_stays_witness :
  let r := exec demo_bridge friendly (maybeLeaveGhost chan1_mxid ghost_a) empty_world in
  outcome r = inr tt /\
  tick (finish r) = tick empty_world /\
  same_stores empty_world (finish r) /\
  trace (finish r) = (trace empty_world ++ [puppetStore_getGhostsInRoom chan1_mxid])%list.
Proof.
  apply (maybeLeaveGhost_stays demo_bridge friendly empty_world chan1_mxid ghost_a).
  left. apply not_elem_of_nil.
Defined.

Lemma maybeLeaveGhost_leaves_witness :
  let r := exec demo_bridge friendly (maybeLeaveGhost chan1_mxid ghost_b) mapped_world in
  outcome r = inr tt /\
  trace (finish r) =
    (trace mapped_world ++
     [puppetStore_getGhostsInRoom chan1_mxid; roomStore_getRoomOp chan1_mxid;
      intent_leaveRoom (IntentForUserId ghost_b) chan1_mxid;
      puppetStore_leaveGhostFromRoom ghost_b chan1_mxid])%list /\
  roomOps (finish r) = roomOps mapped_world /\
  ghost_b ∉ getGhostsInRoom chan1_mxid (ghostsInRoom (finish r)).
Proof.
  apply (maybeLeaveGhost_leaves demo_bridge friendly mapped_world chan1_mxid ghost_b).
  - apply list_elem_of_In. right. left. reflexivity.
  - discriminate.
  - discriminate.
  - intros n. reflexivity.
Defined.

Lemma maybeLeaveGhost_passes_operator_witness :
  let O := power_levels {[ ghost_a := 100 ]} (inr "$event") in
  let client := underlyingClient (IntentForUserId ghost_a) in
  let handed :=
    c_power_levels
      (Some (partial_alter (fun _ => ({[ ghost_a := 100 ]} : gmap string Z) !! ghost_a)
               ghost_b {[ ghost_a := 100 ]})) "" in
  let r := exec demo_bridge O (maybeLeaveGhost chan1_mxid ghost_a) mapped_world in
  outcome r = inr tt /\
  trace (finish r) =
    (trace mapped_world ++
     [puppetStore_getGhostsInRoom chan1_mxid; roomStore_getRoomOp chan1_mxid;
      client_getRoomStateEvent client chan1_mxid "m.room.power_levels" "";
      client_sendStateEvent client chan1_mxid "m.room.power_levels" "" handed;
      roomStore_setRoomOp chan1_mxid ghost_b;
      intent_leaveRoom (IntentForUserId ghost_a) chan1_mxid;
      puppetStore_leaveGhostFromRoom ghost_a chan1_mxid])%list /\
  roomOps (finish r) = <[chan1_mxid := ghost_b]> (roomOps mapped_world) /\
  ghost_a ∉ getGhostsInRoom chan1_mxid (ghostsInRoom (finish r)).
Proof.
  apply (maybeLeaveGhost_passes_operator demo_bridge
           (power_levels {[ ghost_a := 100 ]} (inr "$event")) mapped_world
           chan1_mxid ghost_a ghost_b {[ ghost_a := 100 ]} "").
  - apply list_elem_of_In. left. reflexivity.
  - reflexivity.
  - reflexivity.
  - discriminate.
  - intros n. reflexivity.
  - intros n. eexists. reflexivity.
  - intros n. reflexivity.
Defined.

Lemma maybeLeaveGhost_operator_stays_on_failure_witness :
  let O := power_levels {[ ghost_a := 100 ]} (inl (MatrixError "M_FORBIDDEN")) in
  let r := exec demo_bridge O (maybeLeaveGhost chan1_mxid ghost_a) mapped_world in
  outcome r = inr tt /\
  List.filter is_leaveRoom (trace (finish r)) = List.filter is_leaveRoom (trace mapped_world) /\
  same_stores mapped_world (finish r) /\
  last (logs (finish r)) = Some (error, "Couldn't set new room OP").
Proof.
  apply (maybeLeaveGhost_operator_stays_on_failure demo_bridge
           (power_levels {[ ghost_a := 100 ]} (inl (MatrixError "M_FORBIDDEN"))) mapped_world
           chan1_mxid ghost_a ghost_b {[ ghost_a := 100 ]} "" (MatrixError "M_FORBIDDEN")).
  - apply list_elem_of_In. left. reflexivity.
  - reflexivity.
  - reflexivity.
  - discriminate.
  - intros n. reflexivity.
  - intros n content. reflexivity.
Defined.

Lemma getClient_double_puppet_witness :
  let r := exec demo_bridge friendly (getClient demo_bridge alice) puppet_world in
  outcome r = inr (NewMatrixClient puppet3_token) /\
  held_client (finish r) = held_client puppet_world /\
  same_stores puppet_world (finish r) /\
  trace (finish r) =
    (trace puppet_world ++ [provisioner_get 3; provisioner_getToken (inl 3);
                            client_getUserId (NewMatrixClient puppet3_token)])%list.
Proof.
  apply (getClient_double_puppet demo_bridge friendly puppet_world alice
           {| pp_userId := Some "alice"; pp_puppetMxid := "@alice:example.org" |}
           puppet3_token "@secret:example.org"); reflexivity.
Defined.





Lemma bridgeRoom_declines_witness :
  let r := exec hooked_bridge (homeserver chan1_mxid None) (bridgeRoom hooked_bridge chan1)
             puppet_world in
  outcome r = inr tt /\
  held_mxid (finish r) = held_mxid puppet_world /\
  same_stores puppet_world (finish r) /\
  tick (finish r) = S (tick puppet_world).
Proof.
  apply (bridgeRoom_declines hooked_bridge (homeserver chan1_mxid None) puppet_world
           chan1 None).
  - reflexivity.
  - reflexivity.
  - intros H. exact H.
Defined.


Lemma getMxid_unchanged_witness :
  let r := exec demo_bridge friendly (getMxid demo_bridge chan1 None None true) mapped_world in
  outcome r = inr (chan1_mxid, false) /\
  roomStore (finish r) = roomStore mapped_world /\
  roomOps (finish r) = roomOps mapped_world /\
  List.filter is_room_event (trace (finish r)) =
    List.filter is_room_event (trace mapped_world) /\
  held_mxid (finish r) = held_mxid mapped_world ∖ {[lockKey 3 "chan1"]}.
Proof.
  apply (getMxid_unchanged demo_bridge friendly mapped_world chan1 None None true
           chan1_entry (name_change None)).
  - reflexivity.
  - apply (demo_reconciles demo_bridge); reflexivity.
  - reflexivity.
  - reflexivity.
  - reflexivity.
  - reflexivity.
Defined.

Lemma getMxid_renames_as_operator_witness :
  let r := exec demo_bridge friendly (getMxid demo_bridge chan1_named None None true)
             mapped_world in
  outcome r = inr (chan1_mxid, false) /\
  List.filter is_room_event (trace (finish r)) =
    (List.filter is_room_event (trace mapped_world) ++
     [client_sendStateEvent (underlyingClient (IntentForUserId ghost_a)) chan1_mxid
        "m.room.name" "" (c_name (Some "General"))])%list /\
  roomStore (finish r) =
    <[chan1_mxid := renamed_entry chan1_entry (name_change (Some "General"))]>
      (roomStore mapped_world).
Proof.
  apply (getMxid_renames_as_operator demo_bridge friendly mapped_world chan1_named None None
           true chan1_entry (name_change (Some "General")) ghost_a "General").
  - reflexivity.
  - reflexivity.
  - discriminate.
  - reflexivity.
  - apply (demo_reconciles demo_bridge); reflexivity.
  - reflexivity.
  - reflexivity.
  - reflexivity.
  - reflexivity.
  - intros n c content. eexists. reflexivity.
Defined.
